(** * numenta-apps: the start-model action and the chart widget

    A shallow embedding of
    - [unicorn/frontend/browser/actions/StartModel.js] (the Flux action that
      resolves a metric's min/max, creates the model and streams its data), and
    - the [Chart] React component wrapping Dygraphs,
    followed by the properties of the specification checked against them.

    JavaScript values are a small inductive type; numbers are IEEE doubles
    (the kernel's primitive floats).  Every external collaborator (database
    client, file client, model store) is a field of [ActionContext]; what the
    program does to the outside world is recorded as a trace of [event]s. *)

From Stdlib Require Import List String Ascii Bool ZArith Lia.
From Stdlib Require Import PrimFloat Uint63 DecimalString Sorted Floats.
Import ListNotations.
Open Scope string_scope.
Open Scope list_scope.

Set Implicit Arguments.
Set Warnings "-register-all".

(* ================================================================== *)
(** * JavaScript values *)
(* ================================================================== *)

(** The constructors an object can have been built with.  [instanceof Error]
    holds of every class but [CObject]. *)
Inductive jsclass : Type :=
| CObject | CError | CTypeError | CRangeError | CSyntaxError
| CDatabaseGetError | CDatabasePutError | CFilesystemGetError.

Inductive value : Type :=
| VUndef
| VNull
| VBool (b : bool)
| VNum (n : float)
| VStr (s : string)
| VArr (l : list value)
| VObj (c : jsclass) (fields : list (string * value)).

(** A computation of the language itself either yields or throws. *)
Inductive res (A : Type) : Type :=
| Ok (a : A)
| Throw (e : value).
Arguments Ok {A} a.
Arguments Throw {A} e.

Definition jsclass_eqb (a b : jsclass) : bool :=
  match a, b with
  | CObject, CObject | CError, CError | CTypeError, CTypeError
  | CRangeError, CRangeError | CSyntaxError, CSyntaxError
  | CDatabaseGetError, CDatabaseGetError
  | CDatabasePutError, CDatabasePutError
  | CFilesystemGetError, CFilesystemGetError => true
  | _, _ => false
  end.

Definition float_of_nat (n : nat) : float :=
  PrimFloat.of_uint63 (Uint63.of_Z (Z.of_nat n)).

(** [ToBoolean]: undefined, null, false, 0, NaN and the empty string are
    falsy, everything else is truthy. *)
Definition truthy (v : value) : bool :=
  match v with
  | VUndef | VNull => false
  | VBool b => b
  | VNum n => negb (PrimFloat.eqb n 0 || PrimFloat.is_nan n)
  | VStr s => negb (String.eqb s "")
  | VArr _ | VObj _ _ => true
  end.

(** [v instanceof Error] *)
Definition instanceofError (v : value) : bool :=
  match v with
  | VObj c _ => negb (jsclass_eqb c CObject)
  | _ => false
  end.

Definition instanceOf (c : jsclass) (v : value) : bool :=
  match v with
  | VObj c' _ => jsclass_eqb c c'
  | _ => false
  end.

Fixpoint lookup (k : string) (fields : list (string * value)) : option value :=
  match fields with
  | [] => None
  | (k', v) :: rest => if String.eqb k k' then Some v else lookup k rest
  end.

Definition string_of_nat (n : nat) : string :=
  NilEmpty.string_of_uint (Nat.to_uint n).

(** A property key that is a canonical array index ("0", "1", "12", ...). *)
Definition index_of_key (k : string) : option nat :=
  match NilEmpty.uint_of_string k with
  | Some u =>
      let n := Nat.of_uint u in
      if String.eqb (string_of_nat n) k then Some n else None
  | None => None
  end.

Definition TypeError (msg : string) : value :=
  VObj CTypeError [("message", VStr msg)].
Definition RangeError (msg : string) : value :=
  VObj CRangeError [("message", VStr msg)].
Definition SyntaxError (msg : string) : value :=
  VObj CSyntaxError [("message", VStr msg)].
Definition Error (msg : string) : value :=
  VObj CError [("message", VStr msg)].

(** [k in v].  Own properties only (what [Object.prototype] contributes is
    outside the model); on a primitive the operator throws. *)
Definition has_property (k : string) (v : value) : res bool :=
  match v with
  | VObj _ fields =>
      Ok (match lookup k fields with Some _ => true | None => false end)
  | VArr l =>
      Ok (String.eqb k "length" ||
          match index_of_key k with
          | Some i => Nat.ltb i (List.length l)
          | None => false
          end)
  | _ => Throw (TypeError "Cannot use 'in' operator to search for a key in a primitive")
  end.

(** [v[k]] (and [v.k]).  Reading a property of undefined or null throws;
    a missing property reads as undefined. *)
Definition get (v : value) (k : string) : res value :=
  match v with
  | VUndef | VNull => Throw (TypeError "Cannot read property of undefined or null")
  | VObj _ fields =>
      Ok (match lookup k fields with Some x => x | None => VUndef end)
  | VArr l =>
      if String.eqb k "length" then Ok (VNum (float_of_nat (List.length l)))
      else Ok (match index_of_key k with
               | Some i => nth i l VUndef
               | None => VUndef
               end)
  | VStr s =>
      if String.eqb k "length" then Ok (VNum (float_of_nat (String.length s)))
      else Ok (match index_of_key k with
               | Some i =>
                   match String.get i s with
                   | Some c => VStr (String c EmptyString)
                   | None => VUndef
                   end
               | None => VUndef
               end)
  | VBool _ | VNum _ => Ok VUndef
  end.

(** ** Built-ins and helpers that live outside the action

    [JSON], [Date], string-to-number conversion and the two identifier
    helpers of [lib/Utils] are taken as parameters. *)
Record Builtins : Type := {
  (** [JSON.parse(v)]; [None] when it throws a [SyntaxError]. *)
  JSON_parse : value -> option value;
  (** [JSON.stringify(v)] *)
  JSON_stringify : value -> string;
  (** the time value of [new Date(v)], NaN for an invalid date *)
  Date_time : value -> float;
  (** [toISOString] of a date with a finite time value *)
  Date_isoformat : float -> string;
  (** [ToNumber] on strings, arrays and objects *)
  ToNumber_other : value -> float;
  (** [Utils.generateModelId(filename, metric)] *)
  generateModelId : string -> string -> string;
  (** [Utils.generateDataId(filename, metric, timestamp)], the timestamp
      being a [Date] given by its time value *)
  generateDataId : string -> string -> float -> string
}.

Section Language.
Variable B : Builtins.

(** [ToNumber(v)], which is what [new Number(v).valueOf()] returns. *)
Definition ToNumber (v : value) : float :=
  match v with
  | VNum n => n
  | VUndef => PrimFloat.nan
  | VNull => 0%float
  | VBool b => if b then 1%float else 0%float
  | _ => ToNumber_other B v
  end.

(** [new Date(t).toISOString()] throws on an invalid date. *)
Definition Date_toISOString (t : float) : res string :=
  if PrimFloat.is_nan t || PrimFloat.is_infinity t
  then Throw (RangeError "Invalid time value")
  else Ok (Date_isoformat B t).

(** [x > 0] *)
Definition gt0 (v : value) : bool := PrimFloat.ltb 0%float (ToNumber v).

(** [v.length > 0].  The length of an array or of a string is the number of
    its elements, so the comparison is decided on the list itself; any other
    value has its [length] property read and compared as a number. *)
Definition length_gt0 (v : value) : res bool :=
  match v with
  | VArr l => Ok (match l with [] => false | _ :: _ => true end)
  | VStr s => Ok (negb (String.eqb s ""))
  | _ =>
      match get v "length" with
      | Ok len => Ok (gt0 len)
      | Throw e => Throw e
      end
  end.

End Language.

(** [a.push(x)]: only arrays have the method. *)
Definition push (a x : value) : res value :=
  match a with
  | VArr l => Ok (VArr (l ++ [x]))
  | VUndef | VNull => Throw (TypeError "Cannot read property of undefined or null")
  | _ => Throw (TypeError "push is not a function")
  end.

(** Modelled from the spec: the error kinds of [lib/UserError], which is not
    among the sources.  Each is an [Error] subclass that wraps the underlying
    collaborator failure. *)
Definition UserError (kind : jsclass) (cause : value) : value :=
  VObj kind [("message", cause)].
Definition DatabaseGetError := UserError CDatabaseGetError.
Definition DatabasePutError := UserError CDatabasePutError.
Definition FilesystemGetError := UserError CFilesystemGetError.

(* ================================================================== *)
(** * Effects: traces, promises and go-blocks *)
(* ================================================================== *)

Inductive action : Type := SendDataAction | StopModelAction.

(** The two promises in play: the one the exported action returns and the
    one [streamData] returns. *)
Inductive promise : Type := StartModelPromise | StreamDataPromise.

Definition promise_eqb (p q : promise) : bool :=
  match p, q with
  | StartModelPromise, StartModelPromise
  | StreamDataPromise, StreamDataPromise => true
  | _, _ => false
  end.

(** Everything the action does to its collaborators, in program order. *)
Inductive event : Type :=
| LogDebug (msg : string)                      (* log.debug(msg) *)
| ConsoleError (v : value)                     (* console.error(v) *)
| GetMetric (metricId : string)                (* databaseClient.getMetric *)
| GetStatistics (filename : string)            (* fileClient.getStatistics *)
| PutMetric (metric : value)                   (* databaseClient.putMetric *)
| GetMetricDatas (query : value)               (* databaseClient.getMetricDatas *)
| GetData (filename : string)                  (* fileClient.getData *)
| PutMetricDatas (rows : value)                (* databaseClient.putMetricDatas *)
| ExecuteAction (a : action) (payload : value) (* actionContext.executeAction *)
| DispatchStartModelSuccess (modelId : string) (* actionContext.dispatch *)
| CreateModel (modelId : string) (stats : value) (* modelClient.createModel *)
| Resolve (p : promise) (v : value)            (* resolve(v) of promise p *)
| Reject (p : promise) (v : value)             (* reject(v) of promise p *)
| Uncaught (e : value).                        (* an exception nobody catches *)

Definition trace : Type := list event.

Inductive pstate : Type :=
| Pending
| Fulfilled (v : value)
| Rejected (v : value).

(** A promise is settled by the first call of its [resolve] or [reject];
    later calls do nothing. *)
Fixpoint settled (p : promise) (t : trace) : pstate :=
  match t with
  | [] => Pending
  | Resolve q v :: rest =>
      if promise_eqb p q then Fulfilled v else settled p rest
  | Reject q v :: rest =>
      if promise_eqb p q then Rejected v else settled p rest
  | _ :: rest => settled p rest
  end.

Definition is_send (e : event) : bool :=
  match e with ExecuteAction SendDataAction _ => true | _ => false end.
Definition is_stop (e : event) : bool :=
  match e with ExecuteAction StopModelAction _ => true | _ => false end.
Definition is_getStatistics (e : event) : bool :=
  match e with GetStatistics _ => true | _ => false end.
Definition is_putMetric (e : event) : bool :=
  match e with PutMetric _ => true | _ => false end.
Definition is_putMetricDatas (e : event) : bool :=
  match e with PutMetricDatas _ => true | _ => false end.
Definition is_filesystem (e : event) : bool :=
  match e with GetStatistics _ | GetData _ => true | _ => false end.
Definition is_resolve_of (p : promise) (e : event) : bool :=
  match e with Resolve q _ => promise_eqb p q | _ => false end.
(** the event settles (or tries to settle) promise [p] *)
Definition about (p : promise) (e : event) : bool :=
  match e with
  | Resolve q _ | Reject q _ => promise_eqb p q
  | _ => false
  end.

Definition count (f : event -> bool) (t : trace) : nat :=
  List.length (filter f t).

(** How a stretch of a go-block (or of a callback) ends: with a value, with
    an exception, or parked on a channel that nothing is ever put on. *)
Inductive outcome (A : Type) : Type :=
| Done (a : A)
| Threw (e : value)
| Parked.
Arguments Done {A} a.
Arguments Threw {A} e.
Arguments Parked {A}.

Definition proc (A : Type) : Type := (trace * outcome A)%type.

Definition ret {A} (a : A) : proc A := ([], Done a).

Definition bind {A C} (m : proc A) (k : A -> proc C) : proc C :=
  match m with
  | (t, Done a) => let (t', o) := k a in (t ++ t', o)
  | (t, Threw e) => (t, Threw e)
  | (t, Parked) => (t, Parked)
  end.

Definition emit (e : event) : proc unit := ([e], Done tt).
Definition emit_all (t : trace) : proc unit := (t, Done tt).
Definition park {A} : proc A := ([], Parked).

Definition lift {A} (r : res A) : proc A :=
  match r with
  | Ok a => ret a
  | Throw e => ([], Threw e)
  end.

Declare Scope proc_scope.
Delimit Scope proc_scope with proc.
Notation "x <- m ;; k" := (bind m (fun x => k))
  (at level 61, m at next level, right associativity) : proc_scope.
Notation "m ;; k" := (bind m (fun _ => k))
  (at level 61, right associativity) : proc_scope.
Open Scope proc_scope.

(** [csp.go(function* () { body })], and equally a callback handed to a
    collaborator: an exception escaping it is caught by no one, and no
    promise is settled by it (both generators reach their first [yield]
    before anything in them can throw, and js-csp resumes a go-block from its
    dispatcher, outside the promise's executor). *)
Definition go {A} (body : proc A) : trace :=
  match body with
  | (t, Done _) => t
  | (t, Threw e) => t ++ [Uncaught e]
  | (t, Parked) => t
  end.

(** [csp.putAsync(channel, v)] as seen by the one [csp.take] waiting on the
    channel: the value is delivered, except that js-csp reserves [null] as
    [csp.CLOSED] and throws (into the collaborator's callback) when asked to
    put it, so the taker stays parked. *)
Definition putAsync (v : value) : proc value :=
  match v with
  | VNull => emit (Uncaught (Error "Cannot put CLOSED on a channel.")) ;; park
  | _ => ret v
  end.

(* ================================================================== *)
(** * actions/StartModel.js *)
(* ================================================================== *)

Module StartModel.

(** What [modelStore.getModel(modelId)] returns, as far as the action reads
    it. *)
Record Model : Type := {
  modelId : string;
  filename : string;
  metric : string;
  timestampField : string
}.

(** [actionContext]: the collaborators and how they answer.  A collaborator
    taking a node-style callback answers [Some (error, result)], or [None]
    when it never calls back.  [getData] calls its callback once per record
    and so answers with the list of calls it makes. *)
Record ActionContext : Type := {
  getModel : string -> Model;
  getMetric : string -> option (value * value);
  getStatistics : string -> option (value * value);
  putMetric : value -> option value;
  getMetricDatas : value -> option (value * value);
  getData : string -> list (value * value);
  putMetricDatas : value -> option value
}.

Section Action.
Variable B : Builtins.
Variable actionContext : ActionContext.

(** [yield csp.take(getMetricFromDatabase({actionContext, model}))] *)
Definition getMetricFromDatabase (model : Model) : proc value :=
  let metricId := generateModelId B (filename model) (metric model) in
  emit (GetMetric metricId) ;;
  match getMetric actionContext metricId with
  | None => park
  | Some (error, results) =>
      (* if (error && (!('notFound' in error))) *)
      if truthy error then
        match has_property "notFound" error with
        | Throw e => emit (Uncaught e) ;; park
        | Ok false => putAsync (DatabaseGetError error)
        | Ok true => putAsync results
        end
      else putAsync results
  end.

(** [yield csp.take(getMetricStatsFromFilesystem({actionContext, model}))] *)
Definition getMetricStatsFromFilesystem (model : Model) : proc value :=
  emit (GetStatistics (filename model)) ;;
  match getStatistics actionContext (filename model) with
  | None => park
  | Some (error, stats) =>
      if truthy error then putAsync (FilesystemGetError error)
      else putAsync stats
  end.

(** [yield csp.take(putMetricStatsIntoDatabase({actionContext, metric}))] *)
Definition putMetricStatsIntoDatabase (metric : value) : proc value :=
  emit (PutMetric metric) ;;
  match putMetric actionContext metric with
  | None => park
  | Some error =>
      if truthy error then putAsync (DatabasePutError error)
      else putAsync (VBool true)
  end.

(** [yield csp.take(getMetricDataFromDatabase({actionContext, model}))] *)
Definition getMetricDataFromDatabase (model : Model) : proc value :=
  let query :=
    VObj CObject
      [("metric_uid", VStr (generateModelId B (filename model) (metric model)))] in
  emit (GetMetricDatas query) ;;
  match getMetricDatas actionContext query with
  | None => park
  | Some (error, results) =>
      if truthy error then putAsync (DatabaseGetError error)
      else
        (* results = JSON.parse(results) *)
        match JSON_parse B results with
        | None => emit (Uncaught (SyntaxError "JSON.parse")) ;; park
        | Some parsed => putAsync parsed
        end
  end.

(** The payload of a [SendData] action. *)
Definition sendData (model : Model) (time val : float) : event :=
  ExecuteAction SendDataAction
    (VObj CObject
       [("modelId", VStr (modelId model));
        ("data", VArr [VNum time; VNum val])]).

(** One step of [metricData.forEach((row) => { ... })] (lines 148-155). *)
Definition replayRow (model : Model) (row : value) : proc unit :=
  ts <- lift (get row (timestampField model)) ;;
  mv <- lift (get row "metric_value") ;;
  emit (sendData model (PrimFloat.div (Date_time B ts) 1000) (ToNumber B mv)).

Fixpoint forEach (f : value -> proc unit) (l : list value) : proc unit :=
  match l with
  | [] => ret tt
  | x :: rest => f x ;; forEach f rest
  end.

(** The variables of [streamData] that its [getData] callback closes over
    and assigns. *)
Record StreamVars : Type := {
  rowId : float;
  rows : value
}.

(** The record queued for the database (lines 181-188). *)
Definition dataRow (model : Model) (rowid timestamp val : float)
    (iso : string) : value :=
  VObj CObject
    [("uid", VStr (generateDataId B (filename model) (metric model) timestamp));
     ("metric_uid", VStr (generateModelId B (filename model) (metric model)));
     ("rowid", VNum rowid);
     ("timestamp", VStr iso);
     ("metric_value", VNum val);
     ("display_value", VNum val)].

(** The body of the callback given to [fileClient.getData] (lines 163-209),
    run on one call [(error, data)] in the state [vars]; it yields the state
    it leaves behind. *)
Definition onData (model : Model) (vars : StreamVars) (error data : value)
    : proc StreamVars :=
  if truthy error then
    emit (ExecuteAction StopModelAction (VStr (modelId model))) ;;
    emit (Reject StreamDataPromise error) ;;
    ret vars
  else if truthy data then
    (* try { row = JSON.parse(data); } catch (error) { reject(error); } *)
    row <- match JSON_parse B data with
           | Some parsed => ret parsed
           | None =>
               emit (Reject StreamDataPromise (SyntaxError "JSON.parse")) ;;
               ret VUndef
           end ;;
    ts <- lift (get row (timestampField model)) ;;
    let timestamp := Date_time B ts in
    mv <- lift (get row (metric model)) ;;
    let val := ToNumber B mv in
    iso <- lift (Date_toISOString B timestamp) ;;
    rows' <- lift (push (rows vars)
                     (dataRow model (rowId vars) timestamp val iso)) ;;
    emit (LogDebug "send row to UI") ;;
    emit (sendData model (PrimFloat.div timestamp 1000) val) ;;
    ret {| rowId := PrimFloat.add (rowId vars) 1; rows := rows' |}
  else
    emit (LogDebug "End of data - Save to DB for future runs.") ;;
    let rows' := VStr (JSON_stringify B (rows vars)) in
    emit (PutMetricDatas rows') ;;
    match putMetricDatas actionContext rows' with
    | None => ret tt
    | Some error =>
        if truthy error then emit (Reject StreamDataPromise error)
        else
          emit (LogDebug "on to UI") ;;
          emit (Resolve StreamDataPromise (VStr (modelId model)))
    end ;;
    ret {| rowId := rowId vars; rows := rows' |}.

(** The file client calling the callback: an exception leaving the callback
    lands in the file client, and the variables keep the values they had
    (the callback assigns them only after its last throwing step). *)
Definition call (model : Model) (vars : StreamVars) (c : value * value)
    : trace * StreamVars :=
  match onData model vars (fst c) (snd c) with
  | (t, Done vars') => (t, vars')
  | (t, Threw e) => (t ++ [Uncaught e], vars)
  | (t, Parked) => (t, vars)
  end.

Fixpoint calls (model : Model) (vars : StreamVars) (cs : list (value * value))
    : trace :=
  match cs with
  | [] => []
  | c :: rest =>
      let (t, vars') := call model vars c in
      t ++ calls model vars' rest
  end.

(** The generator of [streamData] (lines 136-211). *)
Definition streamData_go (model : Model) : proc unit :=
  emit (LogDebug "see if metric data is already saved in DB first") ;;
  metricData <- getMetricDataFromDatabase model ;;
  if instanceofError metricData then
    emit (Reject StreamDataPromise metricData) ;;
    emit (ConsoleError metricData)
  else
    cached <- lift (length_gt0 B metricData) ;;
    if (cached : bool) then
      emit (LogDebug "yes metric data is already in DB, use it") ;;
      match metricData with
      | VArr l => forEach (replayRow model) l
      | _ => lift (Throw (TypeError "metricData.forEach is not a function"))
      end ;;
      emit (LogDebug "on to UI") ;;
      emit (Resolve StreamDataPromise (VStr (modelId model)))
    else
      emit (LogDebug "No metric data in DB, load direct from filesystem and save") ;;
      emit (GetData (filename model)) ;;
      emit_all (calls model {| rowId := 0; rows := VArr [] |}
                  (getData actionContext (filename model))).

(** [streamData(actionContext, modelId)]: everything that happens once the
    promise it returns ([StreamDataPromise]) has been created. *)
Definition streamData (modelId : string) : trace :=
  let model := getModel actionContext modelId in
  go (streamData_go model).

(** Lines 239-284 of the exported action: find the metric's min and max.
    [Some stats] when the action goes on with [stats], [None] when it has
    rejected its promise and returned. *)
Definition resolveStats (model : Model) (modelId : string)
    : proc (option value) :=
  emit (LogDebug "see if metric min/max is already in DB") ;;
  metric <- getMetricFromDatabase model ;;
  if instanceofError metric then
    emit (Reject StartModelPromise metric) ;;
    emit (ConsoleError metric) ;;
    ret None
  else
    (* metric && ('min' in metric) && ('max' in metric) *)
    cached <- (if truthy metric then
                 hasMin <- lift (has_property "min" metric) ;;
                 if hasMin then lift (has_property "max" metric) else ret false
               else ret false) ;;
    if (cached : bool) then
      emit (LogDebug "yes, metric min/max was already in DB, so prep for use") ;;
      min <- lift (get metric "min") ;;
      max <- lift (get metric "max") ;;
      ret (Some (VObj CObject [("min", min); ("max", max)]))
    else
      emit (LogDebug "metric min/max was NOT in DB, so load from FS") ;;
      fileStats <- getMetricStatsFromFilesystem model ;;
      (* (fileStats instanceof Error) || (!(model.metric in fileStats)) *)
      failed <- (if instanceofError fileStats then ret true
                 else
                   present <- lift (has_property (StartModel.metric model) fileStats) ;;
                   ret (negb present)) ;;
      if (failed : bool) then
        emit (Reject StartModelPromise fileStats) ;;
        emit (ConsoleError fileStats) ;;
        ret None
      else
        stats <- lift (get fileStats (StartModel.metric model)) ;;
        emit (LogDebug "Now save min/max back to DB, never have to ping FS again") ;;
        uid <- lift (get metric "uid") ;;
        file_uid <- lift (get metric "file_uid") ;;
        name <- lift (get metric "name") ;;
        type <- lift (get metric "type") ;;
        min <- lift (get stats "min") ;;
        max <- lift (get stats "max") ;;
        fileStats <- putMetricStatsIntoDatabase
                       (VObj CObject
                          [("uid", uid);
                           ("file_uid", file_uid);
                           ("model_uid", VStr modelId);
                           ("name", name);
                           ("type", type);
                           ("min", min);
                           ("max", max)]) ;;
        if instanceofError fileStats then
          emit (Reject StartModelPromise fileStats) ;;
          emit (ConsoleError fileStats) ;;
          ret None
        else ret (Some stats).

(** The generator of the exported action (lines 237-291). *)
Definition StartModel_go (modelId : string) : proc unit :=
  let model := getModel actionContext modelId in
  r <- resolveStats model modelId ;;
  match r with
  | None => ret tt
  | Some stats =>
      emit (LogDebug "metric min/max retrieved (either from DB or FS), ready!") ;;
      emit (DispatchStartModelSuccess modelId) ;;
      emit (CreateModel modelId stats) ;;
      emit_all (streamData modelId)
  end.

(** The exported action: everything that happens once the promise it
    returns ([StartModelPromise]) has been created. *)
Definition StartModel (modelId : string) : trace :=
  go (StartModel_go modelId).

End Action.
End StartModel.

(* ================================================================== *)
(** * The Chart widget *)
(* ================================================================== *)

Module Chart.

(** [this.props] *)
Record Props : Type := {
  data : list value;
  metaData : value;
  options : list (string * value);
  zDepth : float
}.

(** What [new Dygraph(el, data, options)] was given. *)
Record Dygraph : Type := {
  file : list value;
  dygraphOptions : list (string * value)
}.

(** The component instance; [None] is [null]. *)
Record Chart : Type := {
  props : Props;
  _displayPointCount : float;
  _dygraph : option Dygraph;
  _chartBusy : option bool;
  _chartRange : option (float * float);
  _chartRangeWidth : option float;
  _chartScrollLock : option bool
}.

(** [obj[k] = v] on an object's own properties. *)
Fixpoint assign1 (k : string) (v : value) (fields : list (string * value))
    : list (string * value) :=
  match fields with
  | [] => [(k, v)]
  | (k', v') :: rest =>
      if String.eqb k k' then (k, v) :: rest else (k', v') :: assign1 k v rest
  end.

(** [Object.assign(target, source)] *)
Definition Object_assign (target source : list (string * value))
    : list (string * value) :=
  fold_left (fun acc kv => assign1 (fst kv) (snd kv) acc) source target.

Section Component.
Variable B : Builtins.

(** [_chartInitalize()]: the instance it leaves behind, or the exception it
    throws (before it has assigned anything). *)
Definition _chartInitalize (this : Chart) : res Chart :=
  let data := data (props this) in
  (* first = new Date(data[0][0]).getTime() *)
  match get (nth 0 data VUndef) "0" with
  | Throw e => Throw e
  | Ok d0 =>
      let first := Date_time B d0 in
      (* second = new Date(data[1][0]).getTime() *)
      match get (nth 1 data VUndef) "0" with
      | Throw e => Throw e
      | Ok d1 =>
          let second := Date_time B d1 in
          let unit := PrimFloat.sub second first in
          let width := PrimFloat.mul unit (_displayPointCount this) in
          let range := (first, PrimFloat.add first width) in
          let options :=
            Object_assign
              [("dateWindow", VArr [VNum (fst range); VNum (snd range)])]
              (options (props this)) in
          Ok {| props := props this;
                _displayPointCount := _displayPointCount this;
                _dygraph := Some {| file := data; dygraphOptions := options |};
                _chartBusy := Some false;
                _chartRange := Some range;
                _chartRangeWidth := Some width;
                _chartScrollLock := _chartScrollLock this |}
      end
  end.

(** The assignments [componentDidMount()] starts with. *)
Definition mounted (this : Chart) : Chart :=
  {| props := props this;
     _displayPointCount := _displayPointCount this;
     _dygraph := _dygraph this;
     _chartBusy := Some false;
     _chartRange := Some (0%float, 0%float);
     _chartRangeWidth := None;
     _chartScrollLock := Some true |}.

(** [componentDidMount()]: the instance afterwards, and the exception that
    left the method if one did. *)
Definition componentDidMount (this : Chart) : Chart * option value :=
  let this := mounted this in
  (* if (this.props.data.length) *)
  match data (props this) with
  | [] => (this, None)
  | _ :: _ =>
      match _chartInitalize this with
      | Ok this' => (this', None)
      | Throw e => (this, Some e)
      end
  end.

End Component.

(** A data point whose first element can be read. *)
Definition isPoint (p : value) : bool :=
  match p with
  | VUndef | VNull => false
  | _ => true
  end.

(** A freshly constructed component. *)
Definition new (p : Props) (displayPointCount : float) : Chart :=
  {| props := p;
     _displayPointCount := displayPointCount;
     _dygraph := None;
     _chartBusy := None;
     _chartRange := None;
     _chartRangeWidth := None;
     _chartScrollLock := None |}.

End Chart.

(* ================================================================== *)
(** * What the properties are stated with *)
(* ================================================================== *)

Module Streaming.
Import StartModel.

Section Records.
Variable B : Builtins.
Variable model : Model.

(** What the [getData] callback reads off one record when nothing in it
    throws: the date's time value, the metric's value, the ISO timestamp. *)
Definition readRecord (data : value) : option (float * float * string) :=
  match JSON_parse B data with
  | None => None
  | Some row =>
      match get row (timestampField model), get row (metric model) with
      | Ok ts, Ok mv =>
          match Date_toISOString B (Date_time B ts) with
          | Ok iso => Some (Date_time B ts, ToNumber B mv, iso)
          | Throw _ => None
          end
      | _, _ => None
      end
  end.

(** A call of the callback that delivers a record: no error, a truthy
    [data] that parses and carries a valid timestamp. *)
Definition isRecord (c : value * value) : bool :=
  negb (truthy (fst c)) && truthy (snd c) &&
  match readRecord (snd c) with Some _ => true | None => false end.

(** The end-of-data call: no error and no data. *)
Definition isEnd (c : value * value) : bool :=
  negb (truthy (fst c)) && negb (truthy (snd c)).

(** The sink event of a record. *)
Definition sendOf (c : value * value) : list event :=
  match readRecord (snd c) with
  | Some (t, v, _) => [sendData model (PrimFloat.div t 1000) v]
  | None => []
  end.

(** The rows queued for the database by a run of records, the first of
    them numbered [rowid]. *)
Fixpoint rowsOf (rowid : float) (cs : list (value * value)) : list value :=
  match cs with
  | [] => []
  | c :: rest =>
      match readRecord (snd c) with
      | Some (t, v, iso) =>
          dataRow B model rowid t v iso :: rowsOf (PrimFloat.add rowid 1) rest
      | None => rowsOf rowid rest
      end
  end.

Fixpoint rowIdAfter (rowid : float) (cs : list (value * value)) : float :=
  match cs with
  | [] => rowid
  | c :: rest =>
      match readRecord (snd c) with
      | Some _ => rowIdAfter (PrimFloat.add rowid 1) rest
      | None => rowIdAfter rowid rest
      end
  end.

(** [row[k]] where it cannot throw. *)
Definition field (row : value) (k : string) : value :=
  match get row k with
  | Ok v => v
  | Throw _ => VUndef
  end.

(** The sink event replayed for a cached row: its timestamp as seconds
    since the epoch, its [metric_value] as a number. *)
Definition replayOf (row : value) : event :=
  sendData model
    (PrimFloat.div (Date_time B (field row (timestampField model))) 1000)
    (ToNumber B (field row "metric_value")).

(** A cached row whose properties can be read. *)
Definition isRow (row : value) : bool :=
  match row with
  | VUndef | VNull => false
  | _ => true
  end.

End Records.

(** The rows the database holds for the model's metric, as
    [getMetricDataFromDatabase] hands them to the go-block. *)
Definition cachedRows (B : Builtins) (actionContext : ActionContext)
    (model : Model) : option (list value) :=
  match getMetricDatas actionContext
          (VObj CObject
             [("metric_uid",
               VStr (generateModelId B (filename model) (metric model)))]) with
  | Some (error, results) =>
      if truthy error then None
      else match JSON_parse B results with
           | Some (VArr l) => Some l
           | _ => None
           end
  | None => None
  end.

(** What [streamData] does before the first record arrives when nothing is
    cached. *)
Definition opening (B : Builtins) (model : Model) : trace :=
  [LogDebug "see if metric data is already saved in DB first";
   GetMetricDatas
     (VObj CObject
        [("metric_uid",
          VStr (generateModelId B (filename model) (metric model)))]);
   LogDebug "No metric data in DB, load direct from filesystem and save";
   GetData (filename model)].

(** The batch handed to [putMetricDatas] at the end of data. *)
Definition batch (B : Builtins) (model : Model) (cs : list (value * value))
    : value :=
  VStr (JSON_stringify B (VArr (rowsOf B model 0 cs))).

(** How the batch write ends the stream. *)
Definition completion (actionContext : ActionContext) (model : Model)
    (batch : value) : trace :=
  match putMetricDatas actionContext batch with
  | None => []
  | Some error =>
      if truthy error then [Reject StreamDataPromise error]
      else [LogDebug "on to UI";
            Resolve StreamDataPromise (VStr (modelId model))]
  end.

End Streaming.

(* ================================================================== *)
(** * Which events a piece of the action can produce *)
(* ================================================================== *)

(** Every event of the trace of [m] passes [P]. *)
Definition quiet {A} (P : event -> bool) (m : proc A) : Prop :=
  forallb P (fst m) = true.

(** Calls to the database and file clients made to find min and max, and
    exceptions nobody catches. *)
Definition collaborates (e : event) : bool :=
  match e with
  | GetMetric _ | GetStatistics _ | PutMetric _ | Uncaught _ => true
  | _ => false
  end.

(** What the stats stage of the exported action can do: log, call its
    collaborators, and reject (never resolve) the action's promise. *)
Definition resolves (e : event) : bool :=
  match e with
  | LogDebug _ | ConsoleError _ => true
  | Reject p _ => promise_eqb p StartModelPromise
  | _ => collaborates e
  end.

(** What [streamData] can do. *)
Definition streams (e : event) : bool :=
  match e with
  | LogDebug _ | ConsoleError _ | GetMetricDatas _ | GetData _
  | PutMetricDatas _ | ExecuteAction _ _ | Uncaught _ => true
  | Resolve p _ | Reject p _ => promise_eqb p StreamDataPromise
  | _ => false
  end.

(** The trace of [m] begins with the events [pre]. *)
Definition starts_with {A} (pre : trace) (m : proc A) : Prop :=
  exists t o, m = (pre ++ t, o).

(** The stats stage goes on to create the model only if it has not
    touched the action's promise. *)
Definition untouched_if_going {A} (m : proc (option A)) : Prop :=
  forall t s,
    m = (t, Done (Some s)) ->
    forallb (fun e => negb (about StartModelPromise e)) t = true.

(* ================================================================== *)
(** * Sample collaborators *)
(* ================================================================== *)

Module Sample.
Import StartModel.

Definition quoted (s : string) : string :=
  String (ascii_of_nat 34) (String.append s (String (ascii_of_nat 34) "")).

(** The text of a one-line JSON object with the given members. *)
Definition object_text (members : list (string * string)) : string :=
  String.append "{"
    (String.append
       (String.concat ","
          (map (fun kv => String.append (quoted (fst kv))
                            (String.append ":" (snd kv))) members))
       "}").

Definition record1_text : string :=
  object_text [("timestamp", "1000"); ("value", "5")].
Definition record2_text : string :=
  object_text [("timestamp", "2000"); ("value", "7")].
(** a record without the timestamp column *)
Definition record3_text : string := object_text [("value", "9")].

Definition record1 : value :=
  VObj CObject [("timestamp", VNum 1000); ("value", VNum 5)].
Definition record2 : value :=
  VObj CObject [("timestamp", VNum 2000); ("value", VNum 7)].
Definition record3 : value := VObj CObject [("value", VNum 9)].

Definition cachedRow1 : value :=
  VObj CObject [("timestamp", VNum 1000); ("metric_value", VNum 5)].
Definition cachedRow2 : value :=
  VObj CObject [("timestamp", VNum 2000); ("metric_value", VNum 7)].
Definition cached_text : string := "[row1,row2]".

(** The documents the sample [JSON.parse] knows. *)
Definition documents : list (string * value) :=
  [(record1_text, record1);
   (record2_text, record2);
   (record3_text, record3);
   ("[]", VArr []);
   (cached_text, VArr [cachedRow1; cachedRow2])].

(** Built-ins reduced to what the sample runs need: [JSON.parse] on the
    documents above, dates given as milliseconds, no string-to-number
    conversion. *)
Definition builtins : Builtins :=
  {| JSON_parse := fun v =>
       match v with VStr s => lookup s documents | _ => None end;
     JSON_stringify := fun v =>
       match v with
       | VArr l => String.append "rows:" (string_of_nat (List.length l))
       | _ => "null"
       end;
     Date_time := fun v =>
       match v with VNum n => n | _ => PrimFloat.nan end;
     Date_isoformat := fun t =>
       if PrimFloat.eqb t 1000 then "1970-01-01T00:00:01.000Z"
       else if PrimFloat.eqb t 2000 then "1970-01-01T00:00:02.000Z"
       else "1970-01-01T00:00:00.000Z";
     ToNumber_other := fun _ => PrimFloat.nan;
     generateModelId := fun f m => String.append f (String.append "!" m);
     generateDataId := fun f m _ => String.append f (String.append "!" m) |}.

Definition model : Model :=
  {| modelId := "file.csv!value";
     filename := "file.csv";
     metric := "value";
     timestampField := "timestamp" |}.

(** The metric record as the database holds it before any run. *)
Definition metricRecord : value :=
  VObj CObject
    [("uid", VStr "file.csv!value"); ("file_uid", VStr "file.csv");
     ("name", VStr "value"); ("type", VStr "number")].

(** The same record once min and max have been saved. *)
Definition metricRecordWithStats : value :=
  VObj CObject
    [("uid", VStr "file.csv!value"); ("file_uid", VStr "file.csv");
     ("name", VStr "value"); ("type", VStr "number");
     ("min", VNum 5); ("max", VNum 7)].

Definition notFoundError : value :=
  VObj CError [("message", VStr "Key not found in database");
               ("notFound", VBool true)].
Definition ioError : value :=
  VObj CError [("message", VStr "EIO")].

Definition fileStatistics : value :=
  VObj CObject [("value", VObj CObject [("min", VNum 5); ("max", VNum 7)])].
(** statistics of a file that has no [value] column *)
Definition otherStatistics : value :=
  VObj CObject [("other", VObj CObject [("min", VNum 0); ("max", VNum 1)])].

(** Nothing cached yet; the file holds two records. *)
Definition fresh : ActionContext :=
  {| getModel := fun _ => model;
     getMetric := fun _ => Some (VNull, metricRecord);
     getStatistics := fun _ => Some (VNull, fileStatistics);
     putMetric := fun _ => Some VNull;
     getMetricDatas := fun _ => Some (VNull, VStr "[]");
     getData := fun _ =>
       [(VNull, VStr record1_text); (VNull, VStr record2_text);
        (VNull, VNull)];
     putMetricDatas := fun _ => Some VNull |}.

(** Stats and rows cached by an earlier run. *)
Definition cached : ActionContext :=
  {| getModel := fun _ => model;
     getMetric := fun _ => Some (VNull, metricRecordWithStats);
     getStatistics := fun _ => Some (VNull, fileStatistics);
     putMetric := fun _ => Some VNull;
     getMetricDatas := fun _ => Some (VNull, VStr cached_text);
     getData := fun _ => [(VNull, VNull)];
     putMetricDatas := fun _ => Some VNull |}.

(** [fresh] with other answers from the database's [getMetric], the file
    client's [getStatistics] and its [getData]. *)
Definition answering (metricAnswer statsAnswer : option (value * value))
    (dataCalls : list (value * value)) : ActionContext :=
  {| getModel := fun _ => model;
     getMetric := fun _ => metricAnswer;
     getStatistics := fun _ => statsAnswer;
     putMetric := fun _ => Some VNull;
     getMetricDatas := fun _ => Some (VNull, VStr "[]");
     getData := fun _ => dataCalls;
     putMetricDatas := fun _ => Some VNull |}.

(** The file has no column for the model's metric. *)
Definition metricMissing : ActionContext :=
  answering (Some (VNull, metricRecord)) (Some (VNull, otherStatistics)) [].

(** The database holds no record of the metric at all. *)
Definition noRecord : ActionContext :=
  answering (Some (notFoundError, VUndef)) (Some (VNull, fileStatistics)) [].

(** The database fails on [getMetric]. *)
Definition databaseDown : ActionContext :=
  answering (Some (ioError, VUndef)) (Some (VNull, fileStatistics)) [].

(** The first line of the file is not JSON; a record and the end of data
    follow. *)
Definition garbled : ActionContext :=
  answering (Some (VNull, metricRecordWithStats)) None
    [(VNull, VStr "not json"); (VNull, VStr record1_text); (VNull, VNull)].


Definition onePoint : Chart.Props :=
  {| Chart.data := [VArr [VNum 1000; VNum 5]];
     Chart.metaData := VObj CObject [];
     Chart.options := [];
     Chart.zDepth := 1 |}.

Definition twoPoints : Chart.Props :=
  {| Chart.data := [VArr [VNum 1000; VNum 5]; VArr [VNum 2000; VNum 7]];
     Chart.metaData := VObj CObject [];
     Chart.options := [];
     Chart.zDepth := 1 |}.

End Sample.


(* ================================================================== *)
(** * The order of the action's calls, and its callbacks by kind *)
(* ================================================================== *)

Module Protocol.
Import StartModel Streaming.

(** A metric record that already carries both bounds. *)
Definition hasBounds (fields : list (string * value)) : bool :=
  match lookup "min" fields, lookup "max" fields with
  | Some _, Some _ => true
  | _, _ => false
  end.

(** The record handed to [putMetric] (lines 268-276): the identity of the
    cached record, the model's identifier, the bounds just read. *)
Definition savedMetric (id : string) (metricRecord stats : value) : value :=
  VObj CObject
    [("uid", field metricRecord "uid");
     ("file_uid", field metricRecord "file_uid");
     ("model_uid", VStr id);
     ("name", field metricRecord "name");
     ("type", field metricRecord "type");
     ("min", field stats "min");
     ("max", field stats "max")].

(** What the action does before it has min and max: logging and the three
    calls of the stats stage (and exceptions nobody catches). *)
Definition stats_only (e : event) : bool :=
  match e with
  | LogDebug _ => true
  | _ => collaborates e
  end.

(** The stats stage returns without bounds exactly when the last things it
    did were to reject the action's promise and print the same value; in
    every other case it did [stats_only] things. *)
Definition tidy {A} (m : proc (option A)) : Prop :=
  match m with
  | (t, Done None) =>
      exists t0 v,
        t = t0 ++ [Reject StartModelPromise v; ConsoleError v]
        /\ forallb stats_only t0 = true
  | (t, _) => forallb stats_only t = true
  end.

(** The collaborator calls that happen at most once per run, numbered in
    the order the source makes them. *)
Definition rank (e : event) : option nat :=
  match e with
  | GetMetric _ => Some 1
  | GetStatistics _ => Some 2
  | PutMetric _ => Some 3
  | DispatchStartModelSuccess _ => Some 4
  | CreateModel _ _ => Some 5
  | GetMetricDatas _ => Some 6
  | GetData _ => Some 7
  | _ => None
  end.

Definition ranks (t : trace) : list nat :=
  flat_map (fun e => match rank e with Some r => [r] | None => [] end) t.

(** The ranked calls of [t] come in strictly increasing order, all of them
    numbered from [lo] up to (not including) [hi]. *)
Definition climbs (lo hi : nat) (t : trace) : Prop :=
  StronglySorted lt (ranks t) /\ Forall (fun r => lo <= r < hi) (ranks t).

Definition unranked (e : event) : bool :=
  match rank e with None => true | Some _ => false end.

(** The three kinds of call the file client makes. *)
Definition isErrorCall (c : value * value) : bool := truthy (fst c).
Definition isDataCall (c : value * value) : bool :=
  negb (truthy (fst c)) && truthy (snd c).

(** Events of the stats stage or of model creation. *)
Definition is_upstream (e : event) : bool :=
  match e with
  | GetMetric _ | GetStatistics _ | PutMetric _
  | DispatchStartModelSuccess _ | CreateModel _ _ => true
  | _ => about StartModelPromise e
  end.

Definition is_createModel (e : event) : bool :=
  match e with CreateModel _ _ => true | _ => false end.

End Protocol.

Module MoreSamples.
Import StartModel.

(** The file client cannot read the file's statistics. *)
Definition statisticsFail : ActionContext :=
  Sample.answering (Some (VNull, Sample.metricRecord))
    (Some (Sample.ioError, VUndef)) [].

(** [Sample.fresh] with a database that refuses writes. *)
Definition readOnly : ActionContext :=
  {| getModel := fun _ => Sample.model;
     getMetric := fun _ => Some (VNull, Sample.metricRecord);
     getStatistics := fun _ => Some (VNull, Sample.fileStatistics);
     putMetric := fun _ => Some Sample.ioError;
     getMetricDatas := fun _ => Some (VNull, VStr "[]");
     getData := fun _ =>
       [(VNull, VStr Sample.record1_text); (VNull, VStr Sample.record2_text);
        (VNull, VNull)];
     putMetricDatas := fun _ => Some Sample.ioError |}.

(** The database fails, or answers with something that is not JSON, when
    asked for the cached rows. *)
Definition rowsUnavailable (answer : value * value) : ActionContext :=
  {| getModel := fun _ => Sample.model;
     getMetric := fun _ => Some (VNull, Sample.metricRecordWithStats);
     getStatistics := fun _ => None;
     putMetric := fun _ => Some VNull;
     getMetricDatas := fun _ => Some answer;
     getData := fun _ => [];
     putMetricDatas := fun _ => Some VNull |}.

(** The cache holds a row, then [null], then another row. *)
Definition holed : ActionContext :=
  rowsUnavailable (VNull, VStr "[row1,null,row2]").

(** [Sample.builtins], knowing one more document. *)
Definition builtins : Builtins :=
  {| JSON_parse := fun v =>
       match v with
       | VStr s =>
           if String.eqb s "[row1,null,row2]"
           then Some (VArr [Sample.cachedRow1; VNull; Sample.cachedRow2])
           else JSON_parse Sample.builtins v
       | _ => None
       end;
     JSON_stringify := JSON_stringify Sample.builtins;
     Date_time := Date_time Sample.builtins;
     Date_isoformat := Date_isoformat Sample.builtins;
     ToNumber_other := ToNumber_other Sample.builtins;
     generateModelId := generateModelId Sample.builtins;
     generateDataId := generateDataId Sample.builtins |}.

(** After the end of data the file client goes on calling. *)
Definition talkative : ActionContext :=
  Sample.answering (Some (VNull, Sample.metricRecordWithStats)) None
    [(VNull, VStr Sample.record1_text); (VNull, VNull);
     (VNull, VStr Sample.record2_text); (VNull, VNull)].

(** The second line of the file has no timestamp. *)
Definition undated : ActionContext :=
  Sample.answering (Some (VNull, Sample.metricRecordWithStats)) None
    [(VNull, VStr Sample.record1_text); (VNull, VStr Sample.record3_text);
     (VNull, VStr Sample.record2_text); (VNull, VNull)].

End MoreSamples.

(* ================================================================== *)
(** * The Chart widget after it is mounted *)
(* ================================================================== *)

Module ChartLifecycle.
Import Chart.

(** The integer a number is, if it is one. *)
Definition integer_of (n : float) : option Z :=
  match Prim2SF n with
  | S754_zero _ => Some 0%Z
  | S754_finite s m e =>
      let sign := if s then (-1)%Z else 1%Z in
      if (0 <=? e)%Z then Some (sign * (Z.pos m * 2 ^ e))%Z
      else
        let d := (2 ^ (- e))%Z in
        if (Z.pos m mod d =? 0)%Z then Some (sign * (Z.pos m / d))%Z
        else None
  | S754_infinity _ | S754_nan => None
  end.

(** [data[n]] for a number [n]: the element when [n] is an index of the
    array, undefined otherwise. *)
Definition element (data : list value) (n : float) : value :=
  match integer_of n with
  | Some z =>
      if ((0 <=? z) && (z <? Z.of_nat (List.length data)))%Z
      then nth (Z.to_nat z) data VUndef
      else VUndef
  | None => VUndef
  end.

(** [n % 2 === 0] *)
Definition is_even (n : float) : bool :=
  match integer_of n with
  | Some z => Z.even z
  | None => false
  end.

(** [this._chartRange] as a value. *)
Definition range_value (r : option (float * float)) : value :=
  match r with
  | Some (lo, hi) => VArr [VNum lo; VNum hi]
  | None => VNull
  end.

(** [this._chartRangeWidth] in arithmetic: [null] counts as 0. *)
Definition width_of (w : option float) : float :=
  match w with
  | Some x => x
  | None => 0%float
  end.

(** [!this._chartBusy] *)
Definition idle (busy : option bool) : bool :=
  match busy with
  | Some true => false
  | _ => true
  end.

(** What [this._dygraph.updateOptions] was called with. *)
Record Update : Type := {
  newOptions : list (string * value);
  blockRedraw : bool
}.

Definition withOptions (p : Props) (o : list (string * value)) : Props :=
  {| data := data p; metaData := metaData p; options := o;
     zDepth := zDepth p |}.

Section Component.
Variable B : Builtins.

(** The date window [_chartUpdate] computes when the chart is not busy
    (lines 169-175): [width] back from the point the model has reached,
    but not starting before the first point. *)
Definition window (first rangeMax width : float) : float * float :=
  let rangeMin := PrimFloat.sub rangeMax width in
  if PrimFloat.ltb rangeMin first
  then (first, PrimFloat.add first width)
  else (rangeMin, rangeMax).

(** [_chartUpdate()]: the instance it leaves behind, and what it gave
    Dygraphs or the exception it threw. *)
Definition _chartUpdate (this : Chart) : Chart * res Update :=
  let data := data (props this) in
  let options := options (props this) in
  (* Math.abs(this.props.metaData.length.model - 1) *)
  match get (metaData (props this)) "length" with
  | Throw e => (this, Throw e)
  | Ok len =>
  match get len "model" with
  | Throw e => (this, Throw e)
  | Ok model =>
  let anomalyCount := PrimFloat.abs (PrimFloat.sub (ToNumber B model) 1) in
  (* new Date(data[0][0]).getTime() *)
  match get (nth 0 data VUndef) "0" with
  | Throw e => (this, Throw e)
  | Ok d0 =>
  let first := Date_time B d0 in
  let blockRedraw := is_even anomalyCount in
  match
    (if idle (_chartBusy this) then
       (* new Date(data[anomalyCount][0]).getTime() *)
       match get (element data anomalyCount) "0" with
       | Throw e => Throw e
       | Ok d =>
           Ok (Some (window first (Date_time B d)
                       (width_of (_chartRangeWidth this))))
       end
     else Ok (_chartRange this))
  with
  | Throw e => (this, Throw e)
  | Ok range =>
      let options :=
        assign1 "file" (VArr data)
          (assign1 "dateWindow" (range_value range) options) in
      match _dygraph this with
      | None =>
          ({| props := withOptions (props this) options;
              _displayPointCount := _displayPointCount this;
              _dygraph := None;
              _chartBusy := Some true;
              _chartRange := range;
              _chartRangeWidth := _chartRangeWidth this;
              _chartScrollLock := _chartScrollLock this |},
           Throw (TypeError "Cannot read property of undefined or null"))
      | Some dygraph =>
          ({| props := withOptions (props this) options;
              _displayPointCount := _displayPointCount this;
              _dygraph := Some dygraph;
              _chartBusy := Some false;
              _chartRange := range;
              _chartRangeWidth := _chartRangeWidth this;
              _chartScrollLock := _chartScrollLock this |},
           Ok {| newOptions := options; blockRedraw := blockRedraw |})
      end
  end
  end
  end
  end.

(** [componentDidUpdate()]: the instance afterwards, and the update given
    to Dygraphs (if one was) or the exception thrown. *)
Definition componentDidUpdate (this : Chart) : Chart * res (option Update) :=
  match _dygraph this with
  | Some _ =>
      match _chartUpdate this with
      | (this', Ok u) => (this', Ok (Some u))
      | (this', Throw e) => (this', Throw e)
      end
  | None =>
      match data (props this) with
      | [] => (this, Ok None)
      | _ :: _ =>
          match _chartInitalize B this with
          | Ok this' => (this', Ok None)
          | Throw e => (this, Throw e)
          end
      end
  end.

End Component.

(** [_rangeMouseDownCallback(event)] *)
Definition _rangeMouseDownCallback (this : Chart) : Chart :=
  {| props := props this;
     _displayPointCount := _displayPointCount this;
     _dygraph := _dygraph this;
     _chartBusy := Some true;
     _chartRange := _chartRange this;
     _chartRangeWidth := _chartRangeWidth this;
     _chartScrollLock := _chartScrollLock this |}.

(** The instance once React has given it new props. *)
Definition receive (this : Chart) (p : Props) : Chart :=
  {| props := p;
     _displayPointCount := _displayPointCount this;
     _dygraph := _dygraph this;
     _chartBusy := _chartBusy this;
     _chartRange := _chartRange this;
     _chartRangeWidth := _chartRangeWidth this;
     _chartScrollLock := _chartScrollLock this |}.

Definition noPoints : Props :=
  {| data := []; metaData := VObj CObject []; options := []; zDepth := 1 |}.

(** A chart that has been updated once. *)
Definition sampleMeta (reached : float) : value :=
  VObj CObject [("length", VObj CObject [("model", VNum reached)])].

Definition threePoints (reached : float) : Props :=
  {| data := [VArr [VNum 1000; VNum 5]; VArr [VNum 2000; VNum 7];
              VArr [VNum 3000; VNum 6]];
     metaData := sampleMeta reached;
     options := [("labels", VArr [VStr "Time"; VStr "Value"])];
     zDepth := 1 |}.

(** The sample chart, mounted with three points of which the model has
    reached the given number, showing two points at a time. *)
Definition sampleChart (reached : float) : Chart :=
  fst (componentDidMount Sample.builtins (Chart.new (threePoints reached) 2)).

End ChartLifecycle.

(* ================================================================== *)
(** * A file read once and replayed from the cache *)
(* ================================================================== *)

Module Reading.
Import StartModel.

(** A call of the callback that delivers a record [JSON.parse] accepts. *)
Definition parseable (B : Builtins) (c : value * value) : bool :=
  negb (truthy (fst c)) && truthy (snd c) &&
  match JSON_parse B (snd c) with Some _ => true | None => false end.

(** The property names every object inherits from [Object.prototype],
    which [has_property] and [get] leave out. *)
Definition inherited (k : string) : bool :=
  existsb (String.eqb k)
    ["constructor"; "hasOwnProperty"; "isPrototypeOf";
     "propertyIsEnumerable"; "toLocaleString"; "toString"; "valueOf";
     "__proto__"; "__defineGetter__"; "__defineSetter__";
     "__lookupGetter__"; "__lookupSetter__"].

(** The keys of the rows [streamData] queues for the database. *)
Definition rowKeys : list string :=
  ["uid"; "metric_uid"; "rowid"; "timestamp"; "metric_value";
   "display_value"].

(** The file holds one line, which has no timestamp. *)
Definition undatedOnly : ActionContext :=
  Sample.answering (Some (VNull, Sample.metricRecordWithStats)) None
    [(VNull, VStr Sample.record3_text); (VNull, VNull)].

End Reading.

Module Replayed.
Import StartModel.

(** [JSON.stringify] of a number that is an integer (a fraction does not
    occur below). *)
Definition number_text (n : float) : string :=
  match ChartLifecycle.integer_of n with
  | Some z => NilEmpty.string_of_int (Z.to_int z)
  | None => "null"
  end.

(** [JSON.stringify] on values without undefined members. *)
Fixpoint stringify (v : value) : string :=
  match v with
  | VUndef | VNull => "null"
  | VBool b => if b then "true" else "false"
  | VNum n => number_text n
  | VStr s => Sample.quoted s
  | VArr l =>
      String.append "["
        (String.append (String.concat "," (map stringify l)) "]")
  | VObj _ fields =>
      String.append "{"
        (String.append
           (String.concat ","
              (map (fun kv =>
                      match kv with
                      | (k, x) =>
                          String.append (Sample.quoted k)
                            (String.append ":" (stringify x))
                      end) fields))
           "}")
  end.

Definition second1 : string := "1970-01-01T00:00:01.000Z".

(** A file whose time column is called [ts]. *)
Definition model : Model :=
  {| modelId := "file.csv!value";
     filename := "file.csv";
     metric := "value";
     timestampField := "ts" |}.

(** The one line of the file, as text and parsed. *)
Definition line : value :=
  VObj CObject [("ts", VStr second1); ("value", VNum 5)].
Definition line_text : string := stringify line.

(** The row the first run queues for that line, and the batch it writes. *)
Definition storedRow : value :=
  VObj CObject
    [("uid", VStr "file.csv!value!1000");
     ("metric_uid", VStr "file.csv!value");
     ("rowid", VNum 0);
     ("timestamp", VStr second1);
     ("metric_value", VNum 5);
     ("display_value", VNum 5)].
Definition stored_text : string := stringify (VArr [storedRow]).

(** Built-ins with ISO dates, [JSON.stringify] as above and [JSON.parse]
    its inverse on the texts of this run. *)
Definition builtins : Builtins :=
  {| JSON_parse := fun v =>
       match v with
       | VStr s =>
           if String.eqb s line_text then Some line
           else if String.eqb s stored_text then Some (VArr [storedRow])
           else if String.eqb s "[]" then Some (VArr [])
           else None
       | _ => None
       end;
     JSON_stringify := stringify;
     Date_time := fun v =>
       match v with
       | VNum n => n
       | VStr s => if String.eqb s second1 then 1000%float else PrimFloat.nan
       | _ => PrimFloat.nan
       end;
     Date_isoformat := fun t =>
       if PrimFloat.eqb t 1000 then second1 else "1970-01-01T00:00:00.000Z";
     ToNumber_other := fun _ => PrimFloat.nan;
     generateModelId := fun f m => String.append f (String.append "!" m);
     generateDataId := fun f m t =>
       String.append f
         (String.append "!" (String.append m
            (String.append "!" (number_text t)))) |}.

(** The first run: nothing cached, the file is read and written to the
    database. *)
Definition firstRun : ActionContext :=
  {| getModel := fun _ => model;
     getMetric := fun _ => Some (VNull, Sample.metricRecordWithStats);
     getStatistics := fun _ => None;
     putMetric := fun _ => Some VNull;
     getMetricDatas := fun _ => Some (VNull, VStr "[]");
     getData := fun _ => [(VNull, VStr line_text); (VNull, VNull)];
     putMetricDatas := fun _ => Some VNull |}.

(** The second run: the database returns what the first run wrote. *)
Definition secondRun : ActionContext :=
  {| getModel := fun _ => model;
     getMetric := fun _ => Some (VNull, Sample.metricRecordWithStats);
     getStatistics := fun _ => None;
     putMetric := fun _ => Some VNull;
     getMetricDatas := fun _ => Some (VNull, VStr stored_text);
     getData := fun _ => [];
     putMetricDatas := fun _ => Some VNull |}.

End Replayed.

(* ================================================================== *)
(** * Properties *)
(* ================================================================== *)

Import StartModel Streaming.
Unset Implicit Arguments.

(** ** Traces and promises *)

Lemma count_app (f : event -> bool) (t1 t2 : trace) :
  count f (t1 ++ t2) = count f t1 + count f t2.
Proof. unfold count. now rewrite filter_app, length_app. Qed.

Lemma settled_app_quiet (p : promise) (t1 t2 : trace) :
  forallb (fun e => negb (about p e)) t1 = true ->
  settled p (t1 ++ t2) = settled p t2.
Proof.
  induction t1 as [|e t1 IH]; intros H; [reflexivity|].
  cbn [forallb] in H. apply andb_true_iff in H as [He Ht].
  cbn [app]. destruct e; cbn in He |- *; auto;
    destruct (promise_eqb p p0); try discriminate; auto.
Qed.

Lemma settled_quiet (p : promise) (t : trace) :
  forallb (fun e => negb (about p e)) t = true -> settled p t = Pending.
Proof.
  intros H. rewrite <- (app_nil_r t). now rewrite settled_app_quiet.
Qed.

(** ** The [getData] callback *)

Section Callback.
Variable B : Builtins.
Variable actionContext : ActionContext.
Variable model : Model.

(** A record is queued, numbered, and sent to the sink. *)
Lemma onData_record vars error data t v iso acc :
  truthy error = false ->
  truthy data = true ->
  readRecord B model data = Some (t, v, iso) ->
  rows vars = VArr acc ->
  onData B actionContext model vars error data =
    ([LogDebug "send row to UI"; sendData model (PrimFloat.div t 1000) v],
     Done {| rowId := PrimFloat.add (rowId vars) 1;
             rows := VArr (acc ++ [dataRow B model (rowId vars) t v iso]) |}).
Proof.
  intros He Hd Hr Hrows. unfold onData, readRecord in *.
  rewrite He, Hd.
  destruct (JSON_parse B data) as [row|]; [|discriminate].
  cbn [bind ret lift emit app].
  destruct (get row (timestampField model)) as [ts|]; [|discriminate].
  cbn [bind ret lift emit app].
  destruct (get row (metric model)) as [mv|]; [|discriminate].
  cbn [bind ret lift emit app].
  destruct (Date_toISOString B (Date_time B ts)) as [iso'|]; [|discriminate].
  injection Hr as <- <- <-. rewrite Hrows. reflexivity.
Qed.


(** The end of data: one batch write, whose answer settles the promise. *)
Lemma onData_end vars error data :
  truthy error = false ->
  truthy data = false ->
  onData B actionContext model vars error data =
    ([LogDebug "End of data - Save to DB for future runs.";
      PutMetricDatas (VStr (JSON_stringify B (rows vars)))]
     ++ completion actionContext model (VStr (JSON_stringify B (rows vars))),
     Done {| rowId := rowId vars;
             rows := VStr (JSON_stringify B (rows vars)) |}).
Proof.
  intros He Hd. unfold onData, completion. rewrite He, Hd.
  cbn [bind emit app].
  destruct (putMetricDatas actionContext _) as [e|]; [|reflexivity].
  destruct (truthy e); reflexivity.
Qed.

(** A record that does not parse: the promise is rejected with the parse
    error, the callback then dies on the row it never got, and no action is
    executed. *)
Lemma onData_unparseable vars error data :
  truthy error = false ->
  truthy data = true ->
  JSON_parse B data = None ->
  onData B actionContext model vars error data =
    ([Reject StreamDataPromise (SyntaxError "JSON.parse")],
     Threw (TypeError "Cannot read property of undefined or null")).
Proof.
  intros He Hd Hp. unfold onData. rewrite He, Hd, Hp. reflexivity.
Qed.

Lemma calls_records cs : forall r acc rest,
  forallb (isRecord B model) cs = true ->
  calls B actionContext model {| rowId := r; rows := VArr acc |} (cs ++ rest) =
    flat_map (fun c => LogDebug "send row to UI" :: sendOf B model c) cs
    ++ calls B actionContext model
         {| rowId := rowIdAfter B model r cs;
            rows := VArr (acc ++ rowsOf B model r cs) |} rest.
Proof.
  induction cs as [|[e d] cs IH]; intros r acc rest H.
  - cbn. now rewrite app_nil_r.
  - cbn [forallb] in H. apply andb_true_iff in H as [Hc Hcs].
    unfold isRecord in Hc. cbn [fst snd] in Hc.
    apply andb_true_iff in Hc as [Hc Hr].
    apply andb_true_iff in Hc as [He Hd].
    apply negb_true_iff in He.
    destruct (readRecord B model d) as [[[t v] iso]|] eqn:Hread;
      [|discriminate].
    cbn [app calls]. unfold call. cbn [fst snd].
    rewrite (onData_record {| rowId := r; rows := VArr acc |} e d t v iso acc
               He Hd Hread eq_refl).
    cbn [rowId rows]. rewrite IH by assumption.
    assert (Hsend : sendOf B model (e, d) =
                    [sendData model (PrimFloat.div t 1000) v])
      by (unfold sendOf; cbn [snd]; now rewrite Hread).
    cbn [flat_map rowIdAfter rowsOf snd]. rewrite Hread, Hsend.
    rewrite <- !app_assoc. reflexivity.
Qed.

Lemma filter_send_records cs :
  forallb (isRecord B model) cs = true ->
  filter is_send
    (flat_map (fun c => LogDebug "send row to UI" :: sendOf B model c) cs)
  = flat_map (sendOf B model) cs
  /\ List.length (flat_map (sendOf B model) cs) = List.length cs.
Proof.
  induction cs as [|c cs IH]; intros H; [split; reflexivity|].
  cbn [forallb] in H. apply andb_true_iff in H as [Hc Hcs].
  destruct (IH Hcs) as [IH1 IH2].
  unfold isRecord in Hc. apply andb_true_iff in Hc as [_ Hr].
  assert (Hsend : exists ev, sendOf B model c = [ev] /\ is_send ev = true).
  { unfold sendOf.
    destruct (readRecord B model (snd c)) as [[[t v] iso]|]; [|discriminate].
    eexists; split; reflexivity. }
  destruct Hsend as (ev & Hsend & Hev).
  cbn [flat_map]. rewrite Hsend. cbn [app filter is_send]. rewrite Hev.
  rewrite IH1. cbn [List.length]. rewrite IH2. split; reflexivity.
Qed.

Lemma rowsOf_length cs : forall r,
  forallb (isRecord B model) cs = true ->
  List.length (rowsOf B model r cs) = List.length cs.
Proof.
  induction cs as [|c cs IH]; intros r H; [reflexivity|].
  cbn [forallb] in H. apply andb_true_iff in H as [Hc Hcs].
  unfold isRecord in Hc. apply andb_true_iff in Hc as [_ Hr].
  cbn [rowsOf].
  destruct (readRecord B model (snd c)) as [[[t v] iso]|]; [|discriminate].
  cbn. now rewrite IH.
Qed.

End Callback.

(** ** The go-block of [streamData] *)

Section Stream.
Variable B : Builtins.
Variable actionContext : ActionContext.
Variable model : Model.

Lemma streamData_go_nothing_cached :
  cachedRows B actionContext model = Some [] ->
  go (streamData_go B actionContext model) =
    opening B model
    ++ calls B actionContext model {| rowId := 0; rows := VArr [] |}
         (getData actionContext (filename model)).
Proof.
  unfold cachedRows, streamData_go, getMetricDataFromDatabase. intros H.
  destruct (getMetricDatas actionContext _) as [[error results]|];
    [|discriminate].
  destruct (truthy error); [discriminate|].
  destruct (JSON_parse B results) as [[| | | | |l|]|]; try discriminate.
  injection H as ->. reflexivity.
Qed.

Lemma forEach_replay l :
  forallb isRow l = true ->
  forEach (replayRow B model) l = (map (replayOf B model) l, Done tt).
Proof.
  induction l as [|row l IH]; intros H; [reflexivity|].
  cbn [forallb] in H. apply andb_true_iff in H as [Hrow Hl].
  cbn [forEach map]. rewrite (IH Hl).
  unfold replayRow, replayOf, field.
  destruct row; try discriminate; cbn [get];
    repeat match goal with
           | |- context [if ?c then _ else _] => destruct c
           end; reflexivity.
Qed.

Lemma streamData_go_cached l :
  cachedRows B actionContext model = Some l ->
  l <> [] ->
  forallb isRow l = true ->
  go (streamData_go B actionContext model) =
    [LogDebug "see if metric data is already saved in DB first";
     GetMetricDatas
       (VObj CObject
          [("metric_uid",
            VStr (generateModelId B (filename model) (metric model)))]);
     LogDebug "yes metric data is already in DB, use it"]
    ++ map (replayOf B model) l
    ++ [LogDebug "on to UI";
        Resolve StreamDataPromise (VStr (modelId model))].
Proof.
  unfold cachedRows, streamData_go, getMetricDataFromDatabase.
  intros H Hne Hrows.
  destruct (getMetricDatas actionContext _) as [[error results]|];
    [|discriminate].
  destruct (truthy error); [discriminate|].
  destruct (JSON_parse B results) as [[| | | | |l'|]|]; try discriminate.
  injection H as ->. destruct l as [|row l]; [congruence|].
  cbn [bind emit putAsync ret instanceofError length_gt0 lift app].
  rewrite (forEach_replay _ Hrows). reflexivity.
Qed.

Lemma records_quiet p cs :
  forallb (fun e => negb (about p e))
    (flat_map (fun c => LogDebug "send row to UI" :: sendOf B model c) cs)
  = true.
Proof.
  induction cs as [|c cs IH]; [reflexivity|].
  cbn [flat_map]. unfold sendOf at 1.
  destruct (readRecord B model (snd c)) as [[[t v] iso]|]; cbn; exact IH.
Qed.

Lemma replay_quiet p l :
  forallb (fun e => negb (about p e)) (map (replayOf B model) l) = true.
Proof. induction l as [|row l IH]; [reflexivity|]. cbn. exact IH. Qed.

Lemma replay_sends l :
  filter is_send (map (replayOf B model) l) = map (replayOf B model) l.
Proof. induction l as [|row l IH]; [reflexivity|]. cbn. now rewrite IH. Qed.

Lemma replay_no_filesystem l :
  filter is_filesystem (map (replayOf B model) l) = [].
Proof. induction l as [|row l IH]; [reflexivity|]. cbn. exact IH. Qed.

Lemma completion_quiet (f : event -> bool) b :
  f (LogDebug "on to UI") = false ->
  (forall p v, f (Resolve p v) = false) ->
  (forall p v, f (Reject p v) = false) ->
  filter f (completion actionContext model b) = [].
Proof.
  intros Hl Hres Hrej. unfold completion.
  destruct (putMetricDatas actionContext b) as [e|]; [|reflexivity].
  destruct (truthy e); cbn; now rewrite ?Hl, ?Hres, ?Hrej.
Qed.

End Stream.

(** ** Streaming from the file *)

(** C2.  When the database holds no rows for the model and the file client
    delivers N records, each of which parses to a row that is not [null]
    and whose timestamp field gives a valid date ([isRecord]), followed by
    the end-of-data call, [streamData] sends the N records to the sink in
    the order read (and nothing else), then makes one [putMetricDatas] call
    whose batch holds exactly the N rows queued, and the promise is
    fulfilled with the model's identifier when that write reports no
    error. *)
Theorem streamData_reads_and_persists
    (B : Builtins) (actionContext : ActionContext) (id : string)
    (cs : list (value * value)) (last : value * value) :
  let model := getModel actionContext id in
  cachedRows B actionContext model = Some [] ->
  getData actionContext (filename model) = cs ++ [last] ->
  forallb (isRecord B model) cs = true ->
  isEnd last = true ->
  streamData B actionContext id =
    opening B model
    ++ flat_map (fun c => LogDebug "send row to UI" :: sendOf B model c) cs
    ++ [LogDebug "End of data - Save to DB for future runs.";
        PutMetricDatas (batch B model cs)]
    ++ completion actionContext model (batch B model cs)
  /\ filter is_send (streamData B actionContext id)
     = flat_map (sendOf B model) cs
  /\ count is_send (streamData B actionContext id) = List.length cs
  /\ filter is_putMetricDatas (streamData B actionContext id)
     = [PutMetricDatas (batch B model cs)]
  /\ List.length (rowsOf B model 0 cs) = List.length cs
  /\ (forall error,
        putMetricDatas actionContext (batch B model cs) = Some error ->
        truthy error = false ->
        settled StreamDataPromise (streamData B actionContext id)
        = Fulfilled (VStr (modelId model))).
Proof.
  intros model Hcache Hdata Hrecords Hend.
  assert (Ht : streamData B actionContext id =
    opening B model
    ++ flat_map (fun c => LogDebug "send row to UI" :: sendOf B model c) cs
    ++ [LogDebug "End of data - Save to DB for future runs.";
        PutMetricDatas (batch B model cs)]
    ++ completion actionContext model (batch B model cs)).
  { unfold streamData. fold model.
    rewrite streamData_go_nothing_cached by assumption.
    rewrite Hdata, calls_records by assumption.
    destruct last as [e d]. unfold isEnd in Hend. cbn [fst snd] in Hend.
    apply andb_true_iff in Hend as [He Hd].
    apply negb_true_iff in He. apply negb_true_iff in Hd.
    cbn [calls]. unfold call. cbn [fst snd].
    rewrite onData_end by assumption. cbn [rows app].
    rewrite app_nil_r. reflexivity. }
  destruct (filter_send_records B model cs Hrecords) as [Hsends Hlen].
  split; [exact Ht|]. rewrite Ht.
  assert (Hfs : filter is_send (streamData B actionContext id) =
                flat_map (sendOf B model) cs).
  { rewrite Ht, !filter_app, Hsends.
    rewrite completion_quiet by reflexivity.
    cbn. now rewrite app_nil_r. }
  rewrite Ht in Hfs.
  split; [exact Hfs|].
  split; [unfold count; now rewrite Hfs|].
  split.
  { rewrite !filter_app. rewrite completion_quiet by reflexivity.
    assert (Hnone : forall l,
      filter is_putMetricDatas
        (flat_map (fun c => LogDebug "send row to UI" :: sendOf B model c) l)
      = []).
    { induction l as [|c l IH]; [reflexivity|].
      cbn [flat_map]. unfold sendOf at 1.
      destruct (readRecord B model (snd c)) as [[[t v] iso]|]; cbn; exact IH. }
    rewrite Hnone. reflexivity. }
  split; [now apply rowsOf_length|].
  intros error Hput Hok.
  rewrite app_assoc. rewrite settled_app_quiet.
  - unfold completion. rewrite Hput, Hok. reflexivity.
  - rewrite forallb_app. rewrite records_quiet. reflexivity.
Qed.

(** The sample file of two records, read and persisted. *)
Lemma streamData_reads_and_persists_sample :
  count is_send (streamData Sample.builtins Sample.fresh "file.csv!value") = 2
  /\ settled StreamDataPromise
       (streamData Sample.builtins Sample.fresh "file.csv!value")
     = Fulfilled (VStr "file.csv!value").
Proof.
  destruct (streamData_reads_and_persists Sample.builtins Sample.fresh
              "file.csv!value"
              [(VNull, VStr Sample.record1_text);
               (VNull, VStr Sample.record2_text)]
              (VNull, VNull)
              eq_refl eq_refl eq_refl eq_refl)
    as (_ & _ & Hcount & _ & _ & Hdone).
  split; [exact Hcount|].
  exact (Hdone VNull eq_refl eq_refl).
Defined.



(** ** Replaying cached rows *)

(** Replay as the code does it: when the database returns a non-empty
    list of rows, none of them [null], [streamData] sends one event per row,
    in the order stored, made of the property of the row that the model's
    timestamp field names and of its [metric_value]; it calls neither
    [getData] nor [getStatistics], and its promise is fulfilled with the
    model's identifier. *)
Theorem streamData_replays_cached_rows
    (B : Builtins) (actionContext : ActionContext) (id : string)
    (cachedList : list value) :
  let model := getModel actionContext id in
  cachedRows B actionContext model = Some cachedList ->
  cachedList <> [] ->
  forallb isRow cachedList = true ->
  streamData B actionContext id =
    [LogDebug "see if metric data is already saved in DB first";
     GetMetricDatas
       (VObj CObject
          [("metric_uid",
            VStr (generateModelId B (filename model) (metric model)))]);
     LogDebug "yes metric data is already in DB, use it"]
    ++ map (replayOf B model) cachedList
    ++ [LogDebug "on to UI";
        Resolve StreamDataPromise (VStr (modelId model))]
  /\ filter is_send (streamData B actionContext id)
     = map (replayOf B model) cachedList
  /\ count is_send (streamData B actionContext id) = List.length cachedList
  /\ count is_filesystem (streamData B actionContext id) = 0
  /\ settled StreamDataPromise (streamData B actionContext id)
     = Fulfilled (VStr (modelId model)).
Proof.
  intros model Hcache Hne Hrows.
  pose proof (streamData_go_cached B actionContext model cachedList
                Hcache Hne Hrows) as Ht.
  fold (streamData B actionContext id) in Ht. fold model.
  unfold streamData. fold model. rewrite Ht.
  assert (Hfs : filter is_send
    ([LogDebug "see if metric data is already saved in DB first";
      GetMetricDatas
        (VObj CObject
           [("metric_uid",
             VStr (generateModelId B (filename model) (metric model)))]);
      LogDebug "yes metric data is already in DB, use it"]
     ++ map (replayOf B model) cachedList
     ++ [LogDebug "on to UI";
         Resolve StreamDataPromise (VStr (modelId model))])
    = map (replayOf B model) cachedList).
  { rewrite !filter_app, replay_sends. cbn. now rewrite app_nil_r. }
  split; [reflexivity|].
  split; [exact Hfs|].
  split; [unfold count; now rewrite Hfs, length_map|].
  split.
  - unfold count. rewrite !filter_app, replay_no_filesystem. reflexivity.
  - rewrite app_assoc. rewrite settled_app_quiet; [reflexivity|].
    rewrite forallb_app, replay_quiet. reflexivity.
Qed.

(** The two sample rows cached by an earlier run, replayed. *)
Lemma streamData_replays_cached_rows_sample :
  filter is_send (streamData Sample.builtins Sample.cached "file.csv!value")
  = [sendData Sample.model 1 5; sendData Sample.model 2 7]
  /\ count is_filesystem
       (streamData Sample.builtins Sample.cached "file.csv!value") = 0.
Proof.
  destruct (streamData_replays_cached_rows Sample.builtins Sample.cached
              "file.csv!value" [Sample.cachedRow1; Sample.cachedRow2]
              eq_refl ltac:(discriminate) eq_refl)
    as (_ & Hsends & _ & Hfs & _).
  split; [exact Hsends | exact Hfs].
Defined.

(** ** Which events each piece produces *)

Lemma quiet_bind {A C} (P : event -> bool) (m : proc A) (k : A -> proc C) :
  quiet P m -> (forall a, quiet P (k a)) -> quiet P (bind m k).
Proof.
  unfold quiet. destruct m as [t [a| |]]; cbn; intros Hm Hk; auto.
  specialize (Hk a). destruct (k a) as [t' o]. cbn in *.
  now rewrite forallb_app, Hm, Hk.
Qed.

Lemma quiet_impl {A} (P Q : event -> bool) (m : proc A) :
  (forall e, P e = true -> Q e = true) -> quiet P m -> quiet Q m.
Proof.
  unfold quiet. intros H. induction (fst m) as [|e t IH]; cbn; auto.
  intros Ht. apply andb_true_iff in Ht as [He Ht].
  now rewrite (H e He), IH.
Qed.

Lemma forallb_filter_nil (P f : event -> bool) (t : trace) :
  (forall e, P e = true -> f e = false) ->
  forallb P t = true -> filter f t = [].
Proof.
  intros H. induction t as [|e t IH]; cbn; auto.
  intros Ht. apply andb_true_iff in Ht as [He Ht].
  now rewrite (H e He), IH.
Qed.

Lemma forallb_weaken (P Q : event -> bool) (t : trace) :
  (forall e, P e = true -> Q e = true) ->
  forallb P t = true -> forallb Q t = true.
Proof.
  intros H. induction t as [|e t IH]; cbn; auto.
  intros Ht. apply andb_true_iff in Ht as [He Ht].
  now rewrite (H e He), IH.
Qed.

Lemma quiet_go {A} (P : event -> bool) (m : proc A) :
  (forall e, P (Uncaught e) = true) -> quiet P m -> forallb P (go m) = true.
Proof.
  unfold quiet, go. destruct m as [t [a|e|]]; cbn; intros HU Ht; auto.
  rewrite forallb_app, Ht. cbn. now rewrite HU.
Qed.

Lemma putAsync_quiet (P : event -> bool) (v : value) :
  (forall e, P (Uncaught e) = true) -> quiet P (putAsync v).
Proof. intros HU. unfold quiet. destruct v; cbn; now rewrite ?HU. Qed.

(** One step through a piece of the action: split a sequence, decide an
    emitted event, branch on whatever the code branches on. *)
Ltac quiet_step :=
  lazymatch goal with
  | |- quiet _ (bind _ _) => apply quiet_bind; [|intros]
  | |- quiet _ (putAsync _) => apply putAsync_quiet; reflexivity
  | |- quiet _ (emit _) => reflexivity
  | |- quiet _ (ret _) => reflexivity
  | |- quiet _ park => reflexivity
  | |- quiet _ (lift ?r) => destruct r; reflexivity
  | |- quiet _ (match ?x with _ => _ end) => destruct x
  end.

Section Events.
Variable B : Builtins.
Variable actionContext : ActionContext.
Variable model : Model.

Lemma getMetricFromDatabase_quiet :
  quiet collaborates (getMetricFromDatabase B actionContext model).
Proof. unfold getMetricFromDatabase. repeat quiet_step. Qed.

Lemma getMetricStatsFromFilesystem_quiet :
  quiet collaborates (getMetricStatsFromFilesystem actionContext model).
Proof. unfold getMetricStatsFromFilesystem. repeat quiet_step. Qed.

Lemma putMetricStatsIntoDatabase_quiet metric :
  quiet collaborates (putMetricStatsIntoDatabase actionContext metric).
Proof. unfold putMetricStatsIntoDatabase. repeat quiet_step. Qed.

Lemma collaborates_resolves e : collaborates e = true -> resolves e = true.
Proof. destruct e; cbn; auto; discriminate. Qed.

Lemma collaborates_untouched p e :
  collaborates e = true -> negb (about p e) = true.
Proof. destruct e; cbn; auto; discriminate. Qed.

Lemma resolveStats_events id :
  quiet resolves (resolveStats B actionContext model id).
Proof.
  pose proof (quiet_impl _ _ _ collaborates_resolves
                getMetricFromDatabase_quiet) as H1.
  pose proof (quiet_impl _ _ _ collaborates_resolves
                getMetricStatsFromFilesystem_quiet) as H2.
  pose proof (fun m => quiet_impl _ _ _ collaborates_resolves
                (putMetricStatsIntoDatabase_quiet m)) as H3.
  unfold resolveStats.
  repeat first [ exact H1 | exact H2 | apply H3 | quiet_step ].
Qed.

Lemma getMetricDataFromDatabase_quiet :
  quiet streams (getMetricDataFromDatabase B actionContext model).
Proof. unfold getMetricDataFromDatabase. repeat quiet_step. Qed.

Lemma onData_quiet vars error data :
  quiet streams (onData B actionContext model vars error data).
Proof. unfold onData. repeat quiet_step. Qed.

Lemma calls_events cs : forall vars,
  forallb streams (calls B actionContext model vars cs) = true.
Proof.
  induction cs as [|c cs IH]; intros vars; [reflexivity|].
  cbn [calls]. unfold call.
  pose proof (onData_quiet vars (fst c) (snd c)) as H. unfold quiet in H.
  destruct (onData B actionContext model vars (fst c) (snd c)) as [t [v|e|]];
    cbn [fst] in H; rewrite ?forallb_app, ?H, ?IH; reflexivity.
Qed.

Lemma forEach_quiet l : quiet streams (forEach (replayRow B model) l).
Proof.
  induction l as [|row l IH]; [reflexivity|].
  cbn [forEach]. apply quiet_bind; [|intros; exact IH].
  unfold replayRow. repeat quiet_step.
Qed.

Lemma streamData_go_events :
  forallb streams (go (streamData_go B actionContext model)) = true.
Proof.
  apply quiet_go; [reflexivity|].
  unfold streamData_go.
  repeat first [ exact getMetricDataFromDatabase_quiet
               | apply forEach_quiet
               | apply calls_events
               | quiet_step ].
Qed.

End Events.

(** ** The stats stage settles the promise only to return *)

Lemma going_bind {X A} (m : proc X) (k : X -> proc (option A)) :
  quiet (fun e => negb (about StartModelPromise e)) m ->
  (forall a, untouched_if_going (k a)) ->
  untouched_if_going (bind m k).
Proof.
  unfold quiet, untouched_if_going.
  destruct m as [t [a| |]]; cbn; intros Hm Hk t0 s H; try discriminate.
  destruct (k a) as [t' o] eqn:E. injection H as <- ->.
  rewrite forallb_app, Hm. exact (Hk a t' s E).
Qed.

Ltac going_step :=
  lazymatch goal with
  | |- untouched_if_going (bind (emit (Reject _ _)) _) =>
      let E := fresh in intros ? ? E; cbn in E; discriminate
  | |- untouched_if_going (bind _ _) => apply going_bind; [|intros]
  | |- untouched_if_going (ret _) =>
      let E := fresh in intros ? ? E; injection E as <- _; reflexivity
  | |- untouched_if_going (match ?x with _ => _ end) => destruct x
  end.

Lemma resolveStats_going (B : Builtins) (actionContext : ActionContext)
    (model : Model) (id : string) :
  untouched_if_going (resolveStats B actionContext model id).
Proof.
  pose proof (quiet_impl _ _ _ (collaborates_untouched StartModelPromise)
                (getMetricFromDatabase_quiet B actionContext model)) as H1.
  pose proof (quiet_impl _ _ _ (collaborates_untouched StartModelPromise)
                (getMetricStatsFromFilesystem_quiet actionContext model)) as H2.
  pose proof (fun m => quiet_impl _ _ _
                (collaborates_untouched StartModelPromise)
                (putMetricStatsIntoDatabase_quiet actionContext m)) as H3.
  unfold resolveStats.
  repeat first [ exact H1 | exact H2 | apply H3 | going_step | quiet_step ].
Qed.

(** ** The promise of the exported action *)

Lemma settled_fulfilled_in (p : promise) (t : trace) (v : value) :
  settled p t = Fulfilled v -> exists q, promise_eqb p q = true /\ In (Resolve q v) t.
Proof.
  induction t as [|e t IH]; cbn; [discriminate|].
  destruct e; try (intros H; destruct (IH H) as (q & Hq & Hin);
                   exists q; split; [exact Hq | now right]).
  - destruct (promise_eqb p p0) eqn:Hp.
    + intros H. injection H as ->. exists p0. split; [exact Hp | now left].
    + intros H; destruct (IH H) as (q & Hq & Hin).
      exists q; split; [exact Hq | now right].
  - destruct (promise_eqb p p0) eqn:Hp; [discriminate|].
    intros H; destruct (IH H) as (q & Hq & Hin).
    exists q; split; [exact Hq | now right].
Qed.

Lemma streams_untouched e :
  streams e = true -> negb (about StartModelPromise e) = true.
Proof. destruct e; cbn; auto; destruct p; auto. Qed.

Lemma resolves_untouched e :
  resolves e = true -> negb (about StreamDataPromise e) = true.
Proof. destruct e; cbn; auto; destruct p; auto. Qed.

Lemma resolves_no_resolve e :
  resolves e = true -> negb (is_resolve_of StartModelPromise e) = true.
Proof. destruct e; cbn; auto; discriminate. Qed.

Lemma streams_no_resolve e :
  streams e = true -> negb (is_resolve_of StartModelPromise e) = true.
Proof. destruct e; cbn; auto; destruct p; auto. Qed.

Lemma StartModel_no_resolve (B : Builtins) (actionContext : ActionContext)
    (id : string) :
  forallb (fun e => negb (is_resolve_of StartModelPromise e))
    (StartModel B actionContext id) = true.
Proof.
  unfold StartModel. apply quiet_go; [reflexivity|].
  unfold StartModel_go. apply quiet_bind.
  - exact (quiet_impl _ _ _ resolves_no_resolve
             (resolveStats_events B actionContext _ id)).
  - intros [stats|]; [|reflexivity].
    repeat (apply quiet_bind; [reflexivity|intros]).
    exact (forallb_weaken _ _ _ streams_no_resolve
             (streamData_go_events B actionContext _)).
Qed.

(** C9.  Whatever the collaborators answer, no [resolve] of the promise the
    exported action returns ever happens, so that promise is never
    fulfilled; and when the promise of [streamData] is fulfilled (stats
    found, model created, streaming complete), the action's own promise is
    still pending. *)
Theorem StartModel_never_resolves
    (B : Builtins) (actionContext : ActionContext) (id : string) :
  (forall v, ~ In (Resolve StartModelPromise v) (StartModel B actionContext id))
  /\ (forall v,
        settled StartModelPromise (StartModel B actionContext id)
        <> Fulfilled v)
  /\ (forall v,
        settled StreamDataPromise (StartModel B actionContext id)
        = Fulfilled v ->
        settled StartModelPromise (StartModel B actionContext id) = Pending).
Proof.
  assert (Hno : forall v,
    ~ In (Resolve StartModelPromise v) (StartModel B actionContext id)).
  { intros v Hin.
    pose proof (StartModel_no_resolve B actionContext id) as H.
    rewrite forallb_forall in H. specialize (H _ Hin). discriminate. }
  split; [exact Hno|]. split.
  - intros v H. apply settled_fulfilled_in in H as (q & Hq & Hin).
    destruct q; [|discriminate]. exact (Hno v Hin).
  - intros v.
    pose proof (resolveStats_going B actionContext
                  (getModel actionContext id) id) as Hgoing.
    pose proof (resolveStats_events B actionContext
                  (getModel actionContext id) id) as Hevents.
    unfold StartModel, StartModel_go.
    destruct (resolveStats B actionContext (getModel actionContext id) id)
      as [t [[stats|]|e|]] eqn:E; unfold quiet in Hevents; cbn [fst] in Hevents.
    + intros _. cbn [bind emit emit_all go app].
      apply settled_quiet. rewrite forallb_app.
      rewrite (Hgoing t stats eq_refl). cbn [forallb about negb andb].
      exact (forallb_weaken _ _ _ streams_untouched
               (streamData_go_events B actionContext _)).
    + cbn [bind ret go app]. rewrite app_nil_r.
      rewrite (settled_quiet StreamDataPromise t); [discriminate|].
      exact (forallb_weaken _ _ _ resolves_untouched Hevents).
    + cbn [bind go].
      rewrite (settled_quiet StreamDataPromise (t ++ [Uncaught e]));
        [discriminate|].
      rewrite forallb_app.
      rewrite (forallb_weaken _ _ _ resolves_untouched Hevents). reflexivity.
    + cbn [bind go].
      rewrite (settled_quiet StreamDataPromise t); [discriminate|].
      exact (forallb_weaken _ _ _ resolves_untouched Hevents).
Qed.

(** The fresh sample run: streaming completes, the action's promise stays
    pending. *)
Lemma StartModel_never_resolves_sample :
  settled StartModelPromise
    (StartModel Sample.builtins Sample.fresh "file.csv!value") = Pending.
Proof.
  exact (proj2 (proj2
    (StartModel_never_resolves Sample.builtins Sample.fresh "file.csv!value"))
    (VStr "file.csv!value") eq_refl).
Defined.

(** ** Finding min and max *)

Lemma bind_emit {A} (e : event) (k : unit -> proc A) :
  bind (emit e) k = (e :: fst (k tt), snd (k tt)).
Proof. unfold bind, emit. destruct (k tt). reflexivity. Qed.

Lemma bind_ret {A C} (a : A) (k : A -> proc C) : bind (ret a) k = k a.
Proof. unfold bind, ret. destruct (k a). reflexivity. Qed.

Lemma starts_nil {A} (m : proc A) : starts_with [] m.
Proof. destruct m as [t o]. now exists t, o. Qed.

Lemma starts_emit {A} (e : event) (pre : trace) (k : unit -> proc A) :
  starts_with pre (k tt) -> starts_with (e :: pre) (bind (emit e) k).
Proof.
  intros (t & o & H). exists t, o. rewrite bind_emit, H. reflexivity.
Qed.

Lemma starts_done {X A} (m : proc X) (k : X -> proc A) t0 a pre :
  m = (t0, Done a) ->
  starts_with pre (k a) -> starts_with (t0 ++ pre) (bind m k).
Proof.
  intros -> (t & o & H). exists t, o. unfold bind. rewrite H.
  now rewrite app_assoc.
Qed.

Lemma starts_left {X A} (m : proc X) (k : X -> proc A) pre :
  starts_with pre m -> starts_with pre (bind m k).
Proof.
  intros (t & o & ->). unfold bind. destruct o as [a| |].
  - destruct (k a) as [t' o']. exists (t ++ t'), o'. now rewrite app_assoc.
  - now exists t, (Threw e).
  - now exists t, Parked.
Qed.

(** C6.  When the database answers the lookup with a metric record that has
    both [min] and [max], the stats stage takes the two bounds from the
    record and does nothing but that lookup: the whole action makes no
    [getStatistics] call and no [putMetric] call, and creates the model with
    the cached bounds. *)
Theorem cached_stats_skip_filesystem
    (B : Builtins) (actionContext : ActionContext) (id : string)
    (error : value) (fields : list (string * value)) (min max : value) :
  let model := getModel actionContext id in
  getMetric actionContext (generateModelId B (filename model) (metric model))
    = Some (error, VObj CObject fields) ->
  truthy error = false ->
  lookup "min" fields = Some min ->
  lookup "max" fields = Some max ->
  resolveStats B actionContext model id =
    ([LogDebug "see if metric min/max is already in DB";
      GetMetric (generateModelId B (filename model) (metric model));
      LogDebug "yes, metric min/max was already in DB, so prep for use"],
     Done (Some (VObj CObject [("min", min); ("max", max)])))
  /\ count is_getStatistics (StartModel B actionContext id) = 0
  /\ count is_putMetric (StartModel B actionContext id) = 0
  /\ In (CreateModel id (VObj CObject [("min", min); ("max", max)]))
        (StartModel B actionContext id).
Proof.
  intros model Hget Herror Hmin Hmax.
  assert (Hstats : resolveStats B actionContext model id =
    ([LogDebug "see if metric min/max is already in DB";
      GetMetric (generateModelId B (filename model) (metric model));
      LogDebug "yes, metric min/max was already in DB, so prep for use"],
     Done (Some (VObj CObject [("min", min); ("max", max)])))).
  { unfold resolveStats, getMetricFromDatabase. rewrite Hget, Herror.
    cbn [bind emit putAsync ret lift instanceofError jsclass_eqb negb truthy
         has_property get app].
    rewrite Hmin, Hmax. reflexivity. }
  split; [exact Hstats|].
  unfold StartModel, StartModel_go. fold model. rewrite Hstats.
  cbn [bind emit emit_all go app].
  pose proof (streamData_go_events B actionContext model) as Hstream.
  fold model in Hstream.
  repeat split.
  - unfold count. cbn [filter is_getStatistics].
    rewrite (forallb_filter_nil streams is_getStatistics); auto.
    intros [] ?; auto; discriminate.
  - unfold count. cbn [filter is_putMetric].
    rewrite (forallb_filter_nil streams is_putMetric); auto.
    intros [] ?; auto; discriminate.
  - cbn. auto 10.
Qed.

(** The sample database with min and max cached. *)
Lemma cached_stats_skip_filesystem_sample :
  count is_getStatistics
    (StartModel Sample.builtins Sample.cached "file.csv!value") = 0
  /\ count is_putMetric
       (StartModel Sample.builtins Sample.cached "file.csv!value") = 0.
Proof.
  destruct (cached_stats_skip_filesystem Sample.builtins Sample.cached
              "file.csv!value" VNull
              [("uid", VStr "file.csv!value"); ("file_uid", VStr "file.csv");
               ("name", VStr "value"); ("type", VStr "number");
               ("min", VNum 5); ("max", VNum 7)]
              (VNum 5) (VNum 7) eq_refl eq_refl eq_refl eq_refl)
    as (_ & Hfs & Hput & _).
  split; [exact Hfs | exact Hput].
Defined.

(** C8.  When the database reports an error object that has [notFound],
    the lookup hands on the result as it is (no [DatabaseGetError] is made
    of it), and with the result absent the stats stage goes on to ask the
    file client; an error object without [notFound] is wrapped in a
    [DatabaseGetError], with which the action's promise is rejected. *)
Theorem notFound_is_a_miss_other_errors_reject
    (B : Builtins) (actionContext : ActionContext) (id : string)
    (error results : value) :
  let model := getModel actionContext id in
  getMetric actionContext (generateModelId B (filename model) (metric model))
    = Some (error, results) ->
  (has_property "notFound" error = Ok true ->
     (results <> VNull ->
      getMetricFromDatabase B actionContext model =
        ([GetMetric (generateModelId B (filename model) (metric model))],
         Done results))
     /\ (results = VUndef ->
         starts_with
           [LogDebug "see if metric min/max is already in DB";
            GetMetric (generateModelId B (filename model) (metric model));
            LogDebug "metric min/max was NOT in DB, so load from FS";
            GetStatistics (filename model)]
           (resolveStats B actionContext model id)))
  /\ (has_property "notFound" error = Ok false ->
      getMetricFromDatabase B actionContext model =
        ([GetMetric (generateModelId B (filename model) (metric model))],
         Done (DatabaseGetError error))
      /\ resolveStats B actionContext model id =
           ([LogDebug "see if metric min/max is already in DB";
             GetMetric (generateModelId B (filename model) (metric model));
             Reject StartModelPromise (DatabaseGetError error);
             ConsoleError (DatabaseGetError error)],
            Done None)
      /\ settled StartModelPromise (StartModel B actionContext id)
         = Rejected (DatabaseGetError error)).
Proof.
  intros model Hget.
  assert (Htruthy : forall b, has_property "notFound" error = Ok b ->
                              truthy error = true).
  { intros b. destruct error; cbn; try discriminate; reflexivity. }
  split.
  - intros Hnf.
    assert (Hlookup : results <> VNull ->
      getMetricFromDatabase B actionContext model =
        ([GetMetric (generateModelId B (filename model) (metric model))],
         Done results)).
    { intros Hres. unfold getMetricFromDatabase.
      rewrite Hget, (Htruthy _ Hnf), Hnf.
      destruct results; try congruence; reflexivity. }
    split; [exact Hlookup|].
    intros ->. unfold resolveStats.
    apply starts_emit.
    apply (starts_done _ _ [GetMetric _] VUndef _
             (Hlookup ltac:(discriminate))).
    cbn [instanceofError truthy]. rewrite bind_ret.
    apply starts_emit. apply starts_left.
    unfold getMetricStatsFromFilesystem. apply starts_emit, starts_nil.
  - intros Hnf.
    assert (Hlookup :
      getMetricFromDatabase B actionContext model =
        ([GetMetric (generateModelId B (filename model) (metric model))],
         Done (DatabaseGetError error))).
    { unfold getMetricFromDatabase.
      rewrite Hget, (Htruthy _ Hnf), Hnf. reflexivity. }
    assert (Hstats : resolveStats B actionContext model id =
           ([LogDebug "see if metric min/max is already in DB";
             GetMetric (generateModelId B (filename model) (metric model));
             Reject StartModelPromise (DatabaseGetError error);
             ConsoleError (DatabaseGetError error)],
            Done None)).
    { unfold resolveStats. rewrite Hlookup. reflexivity. }
    split; [exact Hlookup|]. split; [exact Hstats|].
    unfold StartModel, StartModel_go. fold model. rewrite Hstats. reflexivity.
Qed.

(** The sample database without the record, and the sample database
    failing. *)
Lemma notFound_is_a_miss_other_errors_reject_sample :
  getMetricFromDatabase Sample.builtins Sample.noRecord Sample.model
  = ([GetMetric "file.csv!value"], Done VUndef)
  /\ settled StartModelPromise
       (StartModel Sample.builtins Sample.databaseDown "file.csv!value")
     = Rejected (DatabaseGetError Sample.ioError).
Proof.
  split.
  - exact (proj1 (proj1
      (notFound_is_a_miss_other_errors_reject Sample.builtins Sample.noRecord
         "file.csv!value" Sample.notFoundError VUndef eq_refl) eq_refl)
      ltac:(discriminate)).
  - exact (proj2 (proj2 (proj2
      (notFound_is_a_miss_other_errors_reject Sample.builtins
         Sample.databaseDown "file.csv!value" Sample.ioError VUndef eq_refl)
      eq_refl))).
Defined.

(** Statistics without the model's metric (a metric whose name no object
    inherits from [Object.prototype]): the promise is rejected with the
    statistics themselves. *)
Lemma resolveStats_missing_metric
    (B : Builtins) (actionContext : ActionContext) (model : Model)
    (id : string) (metricRecord error : value)
    (statistics : list (string * value)) :
  getMetricFromDatabase B actionContext model
    = ([GetMetric (generateModelId B (filename model) (metric model))],
       Done metricRecord) ->
  instanceofError metricRecord = false ->
  truthy metricRecord = false \/ has_property "min" metricRecord = Ok false
  \/ (has_property "min" metricRecord = Ok true
      /\ has_property "max" metricRecord = Ok false) ->
  getStatistics actionContext (filename model)
    = Some (error, VObj CObject statistics) ->
  truthy error = false ->
  lookup (metric model) statistics = None ->
  Reading.inherited (metric model) = false ->
  resolveStats B actionContext model id =
    ([LogDebug "see if metric min/max is already in DB";
      GetMetric (generateModelId B (filename model) (metric model));
      LogDebug "metric min/max was NOT in DB, so load from FS";
      GetStatistics (filename model);
      Reject StartModelPromise (VObj CObject statistics);
      ConsoleError (VObj CObject statistics)],
     Done None).
Proof.
  intros Hlookup Hplain Hmiss Hstats Herror Hnone _.
  unfold resolveStats, getMetricStatsFromFilesystem.
  rewrite Hlookup, Hstats, Herror.
  cbn [bind emit app]. rewrite Hplain.
  destruct Hmiss as [Hm | [Hm | [Hm1 Hm2]]].
  - rewrite Hm. cbn. rewrite Hnone. reflexivity.
  - rewrite Hm. destruct (truthy metricRecord); cbn; rewrite Hnone; reflexivity.
  - rewrite Hm1, Hm2.
    destruct (truthy metricRecord); cbn; rewrite Hnone; reflexivity.
Qed.

(** C1.  On the sample file whose statistics have no entry for the model's
    metric, the action rejects its promise with the statistics object the
    file client returned, which is no error at all, let alone a
    [FilesystemGetError]. *)
Theorem missing_metric_rejects_with_statistics :
  StartModel Sample.builtins Sample.metricMissing "file.csv!value" =
    [LogDebug "see if metric min/max is already in DB";
     GetMetric "file.csv!value";
     LogDebug "metric min/max was NOT in DB, so load from FS";
     GetStatistics "file.csv";
     Reject StartModelPromise Sample.otherStatistics;
     ConsoleError Sample.otherStatistics]
  /\ settled StartModelPromise
       (StartModel Sample.builtins Sample.metricMissing "file.csv!value")
     = Rejected Sample.otherStatistics
  /\ instanceofError Sample.otherStatistics = false
  /\ instanceOf CFilesystemGetError Sample.otherStatistics = false.
Proof. repeat split; reflexivity. Qed.

(** No record at all: once the statistics are in, reading [uid] off the
    absent record throws before anything is written back. *)
Lemma resolveStats_no_record
    (B : Builtins) (actionContext : ActionContext) (model : Model)
    (id : string) (error stats : value)
    (statistics : list (string * value)) :
  getMetricFromDatabase B actionContext model
    = ([GetMetric (generateModelId B (filename model) (metric model))],
       Done VUndef) ->
  getStatistics actionContext (filename model)
    = Some (error, VObj CObject statistics) ->
  truthy error = false ->
  lookup (metric model) statistics = Some stats ->
  resolveStats B actionContext model id =
    ([LogDebug "see if metric min/max is already in DB";
      GetMetric (generateModelId B (filename model) (metric model));
      LogDebug "metric min/max was NOT in DB, so load from FS";
      GetStatistics (filename model);
      LogDebug "Now save min/max back to DB, never have to ping FS again"],
     Threw (TypeError "Cannot read property of undefined or null")).
Proof.
  intros Hlookup Hstats Herror Hsome.
  unfold resolveStats, getMetricStatsFromFilesystem.
  rewrite Hlookup, Hstats, Herror. cbn. rewrite Hsome. reflexivity.
Qed.

(** C7.  On the sample database that has no record of the metric, the
    action asks the file client for statistics once and then dies reading
    [uid] off the record it did not get: nothing is written back, and its
    promise is left pending. *)
Theorem no_record_never_written_back :
  StartModel Sample.builtins Sample.noRecord "file.csv!value" =
    [LogDebug "see if metric min/max is already in DB";
     GetMetric "file.csv!value";
     LogDebug "metric min/max was NOT in DB, so load from FS";
     GetStatistics "file.csv";
     LogDebug "Now save min/max back to DB, never have to ping FS again";
     Uncaught (TypeError "Cannot read property of undefined or null")]
  /\ count is_getStatistics
       (StartModel Sample.builtins Sample.noRecord "file.csv!value") = 1
  /\ count is_putMetric
       (StartModel Sample.builtins Sample.noRecord "file.csv!value") = 0
  /\ settled StartModelPromise
       (StartModel Sample.builtins Sample.noRecord "file.csv!value")
     = Pending.
Proof. repeat split; reflexivity. Qed.

(** With a record that only lacks min and max, the bounds are fetched
    once and written back once. *)
Lemma record_without_stats_written_back :
  filter (fun e => is_getStatistics e || is_putMetric e)
    (StartModel Sample.builtins Sample.fresh "file.csv!value")
  = [GetStatistics "file.csv";
     PutMetric
       (VObj CObject
          [("uid", VStr "file.csv!value"); ("file_uid", VStr "file.csv");
           ("model_uid", VStr "file.csv!value"); ("name", VStr "value");
           ("type", VStr "number"); ("min", VNum 5); ("max", VNum 7)])].
Proof. reflexivity. Qed.

(** C4.  On the sample file whose first line is not JSON, [streamData]
    rejects its promise with the parse error, but executes no stop-model
    action, and the stream goes on: the callback dies on the row it never
    got, and the record the file client delivers next is sent to the sink
    and written to the database at the end of data. *)
Theorem parse_failure_issues_no_stop :
  streamData Sample.builtins Sample.garbled "file.csv!value" =
    [LogDebug "see if metric data is already saved in DB first";
     GetMetricDatas (VObj CObject [("metric_uid", VStr "file.csv!value")]);
     LogDebug "No metric data in DB, load direct from filesystem and save";
     GetData "file.csv";
     Reject StreamDataPromise (SyntaxError "JSON.parse");
     Uncaught (TypeError "Cannot read property of undefined or null");
     LogDebug "send row to UI";
     sendData Sample.model 1 5;
     LogDebug "End of data - Save to DB for future runs.";
     PutMetricDatas (VStr "rows:1");
     LogDebug "on to UI";
     Resolve StreamDataPromise (VStr "file.csv!value")]
  /\ settled StreamDataPromise
       (streamData Sample.builtins Sample.garbled "file.csv!value")
     = Rejected (SyntaxError "JSON.parse")
  /\ count is_stop
       (streamData Sample.builtins Sample.garbled "file.csv!value") = 0
  /\ count is_send
       (streamData Sample.builtins Sample.garbled "file.csv!value") = 1
  /\ count is_putMetricDatas
       (streamData Sample.builtins Sample.garbled "file.csv!value") = 1.
Proof. repeat split; reflexivity. Qed.

(** ** The chart *)

(** C10.  With exactly one data point, [componentDidMount] does call
    [_chartInitalize] (the array is not empty), which throws a [TypeError]
    on reading [data[1][0]] before it has computed anything: the range
    width stays [null] and no Dygraph is built.  With two or more points
    whose first element can be read, it runs to the end and sets the width
    to the time between the first two points times the number of points to
    display. *)
Theorem chart_single_point_initialize_throws
    (B : Builtins) (this : Chart.Chart) :
  (forall p,
     Chart.data (Chart.props this) = [p] ->
     (exists e,
        Chart.componentDidMount B this = (Chart.mounted this, Some e)
        /\ instanceOf CTypeError e = true)
     /\ Chart._chartRangeWidth (fst (Chart.componentDidMount B this)) = None
     /\ Chart._dygraph (fst (Chart.componentDidMount B this))
        = Chart._dygraph this)
  /\ (forall p0 p1 rest,
        Chart.data (Chart.props this) = p0 :: p1 :: rest ->
        Chart.isPoint p0 = true ->
        Chart.isPoint p1 = true ->
        snd (Chart.componentDidMount B this) = None
        /\ Chart._chartRangeWidth (fst (Chart.componentDidMount B this))
           = Some (PrimFloat.mul
                     (PrimFloat.sub (Date_time B (field p1 "0"))
                                    (Date_time B (field p0 "0")))
                     (Chart._displayPointCount this))).
Proof.
  split.
  - intros p Hdata.
    assert (H : exists e,
      Chart.componentDidMount B this = (Chart.mounted this, Some e)
      /\ instanceOf CTypeError e = true).
    { unfold Chart.componentDidMount, Chart._chartInitalize.
      cbn [Chart.mounted Chart.props]. rewrite Hdata. cbn [nth].
      destruct (get p "0") as [d0|e] eqn:Hp.
      - cbn [get]. eexists. split; reflexivity.
      - exists e. split; [reflexivity|].
        destruct p; cbn in Hp; try discriminate;
          try (injection Hp as <-; reflexivity);
          repeat match type of Hp with
                 | context [if ?c then _ else _] => destruct c
                 end; discriminate. }
    split; [exact H|]. destruct H as (e & -> & _). split; reflexivity.
  - intros p0 p1 rest Hdata Hp0 Hp1.
    unfold Chart.componentDidMount, Chart._chartInitalize.
    cbn [Chart.mounted Chart.props]. rewrite Hdata. cbn [nth]. unfold field.
    destruct (get p0 "0") as [d0|e] eqn:H0.
    + destruct (get p1 "0") as [d1|e] eqn:H1.
      * split; reflexivity.
      * destruct p1; cbn in H1, Hp1; try discriminate;
          repeat match type of H1 with
                 | context [if ?c then _ else _] => destruct c
                 end; discriminate.
    + destruct p0; cbn in H0, Hp0; try discriminate;
        repeat match type of H0 with
               | context [if ?c then _ else _] => destruct c
               end; discriminate.
Qed.

(** The sample chart given one point, and given two. *)
Lemma chart_single_point_initialize_throws_sample :
  Chart._chartRangeWidth
    (fst (Chart.componentDidMount Sample.builtins
            (Chart.new Sample.onePoint 100))) = None
  /\ Chart._chartRangeWidth
       (fst (Chart.componentDidMount Sample.builtins
               (Chart.new Sample.twoPoints 100))) = Some 100000%float.
Proof.
  split.
  - exact (proj1 (proj2 (proj1
      (chart_single_point_initialize_throws Sample.builtins
         (Chart.new Sample.onePoint 100)) _ eq_refl))).
  - exact (proj2 (proj2
      (chart_single_point_initialize_throws Sample.builtins
         (Chart.new Sample.twoPoints 100)) _ _ _ eq_refl eq_refl eq_refl)).
Defined.

(* ================================================================== *)
(** * Further properties of the action *)
(* ================================================================== *)

Import Protocol.

(** ** The stats stage when the bounds are not cached *)

Lemma hasBounds_false fields :
  hasBounds fields = false ->
  lookup "min" fields = None
  \/ (exists v, lookup "min" fields = Some v) /\ lookup "max" fields = None.
Proof.
  unfold hasBounds. destruct (lookup "min" fields) as [v|]; [|now left].
  destruct (lookup "max" fields); [discriminate|].
  right. split; [now exists v | reflexivity].
Qed.

Lemma get_isRow (v : value) (k : string) :
  isRow v = true -> get v k = Ok (field v k).
Proof.
  unfold field. destruct v; try discriminate; intros _; cbn [get];
    repeat match goal with
           | |- context [if ?c then _ else _] => destruct c
           end; reflexivity.
Qed.

(** X1.  When the metric's record has no bounds yet and the file client
    reports an error for the statistics, the action rejects its promise
    with that error wrapped in a [FilesystemGetError], prints it, and stops:
    nothing is written, no model is created and nothing is streamed. *)
Theorem statistics_failure_rejects
    (B : Builtins) (actionContext : ActionContext) (id : string)
    (error ferror fstats : value) (fields : list (string * value)) :
  let model := getModel actionContext id in
  getMetric actionContext (generateModelId B (filename model) (metric model))
    = Some (error, VObj CObject fields) ->
  truthy error = false ->
  hasBounds fields = false ->
  getStatistics actionContext (filename model) = Some (ferror, fstats) ->
  truthy ferror = true ->
  StartModel B actionContext id =
    [LogDebug "see if metric min/max is already in DB";
     GetMetric (generateModelId B (filename model) (metric model));
     LogDebug "metric min/max was NOT in DB, so load from FS";
     GetStatistics (filename model);
     Reject StartModelPromise (FilesystemGetError ferror);
     ConsoleError (FilesystemGetError ferror)]
  /\ settled StartModelPromise (StartModel B actionContext id)
     = Rejected (FilesystemGetError ferror).
Proof.
  intros model Hget Herror Hbounds Hfs Hferror.
  assert (Ht : StartModel B actionContext id =
    [LogDebug "see if metric min/max is already in DB";
     GetMetric (generateModelId B (filename model) (metric model));
     LogDebug "metric min/max was NOT in DB, so load from FS";
     GetStatistics (filename model);
     Reject StartModelPromise (FilesystemGetError ferror);
     ConsoleError (FilesystemGetError ferror)]).
  { unfold StartModel, StartModel_go, resolveStats, getMetricFromDatabase,
      getMetricStatsFromFilesystem.
    fold model. rewrite Hget, Herror, Hfs, Hferror.
    destruct (hasBounds_false _ Hbounds) as [Hmin | [[v Hmin] Hmax]];
      cbn [putAsync bind emit ret instanceofError jsclass_eqb negb truthy
           has_property lift app FilesystemGetError UserError go];
      rewrite ?Hmin, ?Hmax; reflexivity. }
  split; [exact Ht|]. rewrite Ht. reflexivity.
Qed.

(** The sample file client failing on the statistics. *)
Lemma statistics_failure_rejects_sample :
  settled StartModelPromise
    (StartModel Sample.builtins MoreSamples.statisticsFail "file.csv!value")
  = Rejected (FilesystemGetError Sample.ioError).
Proof.
  exact (proj2
    (statistics_failure_rejects Sample.builtins MoreSamples.statisticsFail
       "file.csv!value" VNull Sample.ioError VUndef
       [("uid", VStr "file.csv!value"); ("file_uid", VStr "file.csv");
        ("name", VStr "value"); ("type", VStr "number")]
       eq_refl eq_refl eq_refl eq_refl eq_refl)).
Defined.

(** The stats stage on a record without bounds and statistics that hold
    the metric, up to the answer of the database to the write. *)
Lemma resolveStats_fetches_and_writes
    (B : Builtins) (actionContext : ActionContext) (model : Model)
    (id : string) (error ferror stats : value)
    (fields statistics : list (string * value)) :
  getMetric actionContext (generateModelId B (filename model) (metric model))
    = Some (error, VObj CObject fields) ->
  truthy error = false ->
  hasBounds fields = false ->
  getStatistics actionContext (filename model)
    = Some (ferror, VObj CObject statistics) ->
  truthy ferror = false ->
  lookup (metric model) statistics = Some stats ->
  isRow stats = true ->
  resolveStats B actionContext model id =
    bind (emit_all
      [LogDebug "see if metric min/max is already in DB";
       GetMetric (generateModelId B (filename model) (metric model));
       LogDebug "metric min/max was NOT in DB, so load from FS";
       GetStatistics (filename model);
       LogDebug "Now save min/max back to DB, never have to ping FS again"])
      (fun _ =>
         bind (putMetricStatsIntoDatabase actionContext
                 (savedMetric id (VObj CObject fields) stats))
           (fun saved =>
              if instanceofError saved then
                bind (emit (Reject StartModelPromise saved)) (fun _ =>
                bind (emit (ConsoleError saved)) (fun _ => ret None))
              else ret (Some stats))).
Proof.
  intros Hget Herror Hbounds Hfs Hferror Hstats Hrow.
  unfold resolveStats, getMetricFromDatabase, getMetricStatsFromFilesystem.
  rewrite Hget, Herror, Hfs, Hferror.
  assert (Hmin := get_isRow stats "min" Hrow).
  assert (Hmax := get_isRow stats "max" Hrow).
  unfold savedMetric, field at 1 2 3 4. cbn [get].
  destruct (putMetricStatsIntoDatabase actionContext _) as [t o] eqn:E.
  destruct (hasBounds_false _ Hbounds) as [Hm | [[v Hm] Hm']];
    cbn [putAsync bind emit ret instanceofError jsclass_eqb negb truthy
         has_property get lift app emit_all];
    rewrite ?Hm, ?Hm';
    cbn [putAsync bind emit ret instanceofError jsclass_eqb negb truthy
         has_property get lift app emit_all];
    rewrite Hstats;
    cbn [putAsync bind emit ret instanceofError jsclass_eqb negb truthy
         has_property get lift app emit_all];
    rewrite Hmin, Hmax;
    cbn [putAsync bind emit ret instanceofError jsclass_eqb negb truthy
         has_property get lift app emit_all];
    rewrite E;
    destruct o as [a| |];
    cbn [putAsync bind emit ret lift app emit_all];
    try destruct (instanceofError a); reflexivity.
Qed.

(** X2.  When the metric's record has no bounds yet and the file's
    statistics hold the metric, the action asks the file client once, writes
    once a record made of the cached record's [uid], [file_uid], [name] and
    [type], the identifier the action was called with, and the [min] and
    [max] just read; when the write reports no error, the model is created
    with the statistics of the metric. *)
Theorem stats_fetched_once_and_saved
    (B : Builtins) (actionContext : ActionContext) (id : string)
    (error ferror stats perror : value)
    (fields statistics : list (string * value)) :
  let model := getModel actionContext id in
  getMetric actionContext (generateModelId B (filename model) (metric model))
    = Some (error, VObj CObject fields) ->
  truthy error = false ->
  hasBounds fields = false ->
  getStatistics actionContext (filename model)
    = Some (ferror, VObj CObject statistics) ->
  truthy ferror = false ->
  lookup (metric model) statistics = Some stats ->
  isRow stats = true ->
  putMetric actionContext (savedMetric id (VObj CObject fields) stats)
    = Some perror ->
  truthy perror = false ->
  resolveStats B actionContext model id =
    ([LogDebug "see if metric min/max is already in DB";
      GetMetric (generateModelId B (filename model) (metric model));
      LogDebug "metric min/max was NOT in DB, so load from FS";
      GetStatistics (filename model);
      LogDebug "Now save min/max back to DB, never have to ping FS again";
      PutMetric (savedMetric id (VObj CObject fields) stats)],
     Done (Some stats))
  /\ count is_getStatistics (StartModel B actionContext id) = 1
  /\ count is_putMetric (StartModel B actionContext id) = 1
  /\ In (CreateModel id stats) (StartModel B actionContext id).
Proof.
  intros model Hget Herror Hbounds Hfs Hferror Hstats Hrow Hput Hperror.
  assert (Hres : resolveStats B actionContext model id =
    ([LogDebug "see if metric min/max is already in DB";
      GetMetric (generateModelId B (filename model) (metric model));
      LogDebug "metric min/max was NOT in DB, so load from FS";
      GetStatistics (filename model);
      LogDebug "Now save min/max back to DB, never have to ping FS again";
      PutMetric (savedMetric id (VObj CObject fields) stats)],
     Done (Some stats))).
  { rewrite (resolveStats_fetches_and_writes B actionContext model id
               error ferror stats fields statistics) by assumption.
    unfold putMetricStatsIntoDatabase. rewrite Hput, Hperror. reflexivity. }
  split; [exact Hres|].
  unfold StartModel, StartModel_go. fold model. rewrite Hres.
  cbn [bind emit emit_all go app].
  pose proof (streamData_go_events B actionContext model) as Hstream.
  fold model in Hstream.
  repeat split.
  - unfold count. cbn [filter is_getStatistics].
    rewrite (forallb_filter_nil streams is_getStatistics); auto.
    intros [] ?; auto; discriminate.
  - unfold count. cbn [filter is_putMetric].
    rewrite (forallb_filter_nil streams is_putMetric); auto.
    intros [] ?; auto; discriminate.
  - cbn. auto 12.
Qed.

(** The fresh sample run. *)
Lemma stats_fetched_once_and_saved_sample :
  In (CreateModel "file.csv!value"
        (VObj CObject [("min", VNum 5); ("max", VNum 7)]))
     (StartModel Sample.builtins Sample.fresh "file.csv!value").
Proof.
  exact (proj2 (proj2 (proj2
    (stats_fetched_once_and_saved Sample.builtins Sample.fresh
       "file.csv!value" VNull VNull
       (VObj CObject [("min", VNum 5); ("max", VNum 7)]) VNull
       [("uid", VStr "file.csv!value"); ("file_uid", VStr "file.csv");
        ("name", VStr "value"); ("type", VStr "number")]
       [("value", VObj CObject [("min", VNum 5); ("max", VNum 7)])]
       eq_refl eq_refl eq_refl eq_refl eq_refl eq_refl eq_refl eq_refl
       eq_refl)))).
Defined.

(** X3.  In the same situation, when the database reports an error for the
    write, the action rejects its promise with that error wrapped in a
    [DatabasePutError], prints it, and stops: no model is created and
    nothing is streamed. *)
Theorem stats_write_failure_rejects
    (B : Builtins) (actionContext : ActionContext) (id : string)
    (error ferror stats perror : value)
    (fields statistics : list (string * value)) :
  let model := getModel actionContext id in
  getMetric actionContext (generateModelId B (filename model) (metric model))
    = Some (error, VObj CObject fields) ->
  truthy error = false ->
  hasBounds fields = false ->
  getStatistics actionContext (filename model)
    = Some (ferror, VObj CObject statistics) ->
  truthy ferror = false ->
  lookup (metric model) statistics = Some stats ->
  isRow stats = true ->
  putMetric actionContext (savedMetric id (VObj CObject fields) stats)
    = Some perror ->
  truthy perror = true ->
  StartModel B actionContext id =
    [LogDebug "see if metric min/max is already in DB";
     GetMetric (generateModelId B (filename model) (metric model));
     LogDebug "metric min/max was NOT in DB, so load from FS";
     GetStatistics (filename model);
     LogDebug "Now save min/max back to DB, never have to ping FS again";
     PutMetric (savedMetric id (VObj CObject fields) stats);
     Reject StartModelPromise (DatabasePutError perror);
     ConsoleError (DatabasePutError perror)]
  /\ settled StartModelPromise (StartModel B actionContext id)
     = Rejected (DatabasePutError perror).
Proof.
  intros model Hget Herror Hbounds Hfs Hferror Hstats Hrow Hput Hperror.
  assert (Ht : StartModel B actionContext id =
    [LogDebug "see if metric min/max is already in DB";
     GetMetric (generateModelId B (filename model) (metric model));
     LogDebug "metric min/max was NOT in DB, so load from FS";
     GetStatistics (filename model);
     LogDebug "Now save min/max back to DB, never have to ping FS again";
     PutMetric (savedMetric id (VObj CObject fields) stats);
     Reject StartModelPromise (DatabasePutError perror);
     ConsoleError (DatabasePutError perror)]).
  { unfold StartModel, StartModel_go. fold model.
    rewrite (resolveStats_fetches_and_writes B actionContext model id
               error ferror stats fields statistics) by assumption.
    unfold putMetricStatsIntoDatabase. rewrite Hput, Hperror. reflexivity. }
  split; [exact Ht|]. rewrite Ht. reflexivity.
Qed.

(** The sample database refusing the write. *)
Lemma stats_write_failure_rejects_sample :
  settled StartModelPromise
    (StartModel Sample.builtins MoreSamples.readOnly "file.csv!value")
  = Rejected (DatabasePutError Sample.ioError).
Proof.
  exact (proj2
    (stats_write_failure_rejects Sample.builtins MoreSamples.readOnly
       "file.csv!value" VNull VNull
       (VObj CObject [("min", VNum 5); ("max", VNum 7)]) Sample.ioError
       [("uid", VStr "file.csv!value"); ("file_uid", VStr "file.csv");
        ("name", VStr "value"); ("type", VStr "number")]
       [("value", VObj CObject [("min", VNum 5); ("max", VNum 7)])]
       eq_refl eq_refl eq_refl eq_refl eq_refl eq_refl eq_refl eq_refl
       eq_refl)).
Defined.

(** ** A rejection is the last thing the action does *)

Lemma tidy_bind {X A} (m : proc X) (k : X -> proc (option A)) :
  quiet stats_only m -> (forall a, tidy (k a)) -> tidy (bind m k).
Proof.
  unfold quiet, tidy.
  destruct m as [t [a| |]]; cbn; intros Hm Hk; auto.
  specialize (Hk a). destruct (k a) as [t' [[s|]| |]];
    try (now rewrite forallb_app, Hm, Hk).
  destruct Hk as (t0 & v & -> & Ht0).
  exists (t ++ t0), v. split; [now rewrite app_assoc|].
  now rewrite forallb_app, Hm, Ht0.
Qed.

Lemma collaborates_stats_only e : collaborates e = true -> stats_only e = true.
Proof. destruct e; cbn; auto. Qed.

Ltac tidy_step :=
  lazymatch goal with
  | |- tidy (bind (emit (Reject _ ?v)) _) =>
      exists [], v; split; reflexivity
  | |- tidy (bind _ _) => apply tidy_bind; [|intros]
  | |- tidy (ret (Some _)) => reflexivity
  | |- tidy (match ?x with _ => _ end) => destruct x
  end.

Lemma resolveStats_tidy (B : Builtins) (actionContext : ActionContext)
    (model : Model) (id : string) :
  tidy (resolveStats B actionContext model id).
Proof.
  pose proof (quiet_impl _ _ _ collaborates_stats_only
                (getMetricFromDatabase_quiet B actionContext model)) as H1.
  pose proof (quiet_impl _ _ _ collaborates_stats_only
                (getMetricStatsFromFilesystem_quiet actionContext model)) as H2.
  pose proof (fun m => quiet_impl _ _ _ collaborates_stats_only
                (putMetricStatsIntoDatabase_quiet actionContext m)) as H3.
  unfold resolveStats.
  repeat first [ exact H1 | exact H2 | apply H3 | tidy_step | quiet_step ].
Qed.

Lemma stats_only_no_reject t v :
  forallb stats_only t = true -> ~ In (Reject StartModelPromise v) t.
Proof.
  intros H Hin. rewrite forallb_forall in H. specialize (H _ Hin).
  discriminate.
Qed.

Lemma stats_only_untouched e :
  stats_only e = true -> negb (about StartModelPromise e) = true.
Proof. destruct e; cbn; auto; discriminate. Qed.

(** X4.  If the action ever rejects its promise with [v], then that
    rejection followed by [console.error(v)] is the end of everything it
    does, and all it did before was to log and to call [getMetric],
    [getStatistics] and [putMetric]: the promise was not touched before, no
    model was created and nothing was streamed. *)
Theorem rejection_is_printed_and_final
    (B : Builtins) (actionContext : ActionContext) (id : string) (v : value) :
  In (Reject StartModelPromise v) (StartModel B actionContext id) ->
  exists before,
    StartModel B actionContext id
    = before ++ [Reject StartModelPromise v; ConsoleError v]
    /\ forallb stats_only before = true
    /\ settled StartModelPromise (StartModel B actionContext id) = Rejected v.
Proof.
  pose proof (resolveStats_tidy B actionContext
                (getModel actionContext id) id) as Htidy.
  unfold StartModel, StartModel_go.
  destruct (resolveStats B actionContext (getModel actionContext id) id)
    as [t [[stats|]|e|]] eqn:E; unfold tidy in Htidy.
  - cbn [bind emit emit_all go app]. intros Hin. exfalso.
    apply in_app_or in Hin as [Hin | Hin].
    + exact (stats_only_no_reject _ _ Htidy Hin).
    + cbn [In] in Hin.
      destruct Hin as [Hin|[Hin|[Hin|Hin]]]; try discriminate.
      pose proof (streamData_go_events B actionContext
                    (getModel actionContext id)) as Hs.
      rewrite forallb_forall in Hs. specialize (Hs _ Hin). discriminate.
  - cbn [bind ret go app]. rewrite app_nil_r.
    destruct Htidy as (t0 & v' & -> & Ht0). intros Hin.
    apply in_app_or in Hin as [Hin | Hin].
    + exfalso. exact (stats_only_no_reject _ _ Ht0 Hin).
    + cbn [In] in Hin. destruct Hin as [Hin|[Hin|[]]]; [|discriminate].
      injection Hin as ->. exists t0. split; [reflexivity|].
      split; [exact Ht0|].
      rewrite settled_app_quiet; [reflexivity|].
      exact (forallb_weaken _ _ _ stats_only_untouched Ht0).
  - cbn [bind go]. intros Hin. exfalso.
    apply in_app_or in Hin as [Hin | Hin].
    + exact (stats_only_no_reject _ _ Htidy Hin).
    + cbn [In] in Hin. destruct Hin as [Hin|[]]. discriminate.
  - cbn [bind go]. intros Hin. exfalso.
    exact (stats_only_no_reject _ _ Htidy Hin).
Qed.

(** The sample database failing on the lookup. *)
Lemma rejection_is_printed_and_final_sample :
  exists before,
    StartModel Sample.builtins Sample.databaseDown "file.csv!value"
    = before ++ [Reject StartModelPromise (DatabaseGetError Sample.ioError);
                 ConsoleError (DatabaseGetError Sample.ioError)]
    /\ forallb stats_only before = true
    /\ settled StartModelPromise
         (StartModel Sample.builtins Sample.databaseDown "file.csv!value")
       = Rejected (DatabaseGetError Sample.ioError).
Proof.
  apply (rejection_is_printed_and_final Sample.builtins Sample.databaseDown
           "file.csv!value" (DatabaseGetError Sample.ioError)).
  cbn. auto.
Defined.

(** ** The order of the calls *)

Lemma ranks_app t1 t2 : ranks (t1 ++ t2) = ranks t1 ++ ranks t2.
Proof. unfold ranks. apply flat_map_app. Qed.

Lemma ranks_unranked t : forallb unranked t = true -> ranks t = [].
Proof.
  induction t as [|e t IH]; [reflexivity|]. cbn [forallb].
  intros H. apply andb_true_iff in H as [He Ht].
  unfold ranks in *. cbn [flat_map]. unfold unranked in He.
  destruct (rank e); [discriminate|]. now apply IH.
Qed.

Lemma climbs_unranked lo t : forallb unranked t = true -> climbs lo lo t.
Proof.
  intros H. unfold climbs. rewrite (ranks_unranked _ H).
  split; constructor.
Qed.

Lemma climbs_app lo mid hi t1 t2 :
  lo <= mid <= hi ->
  climbs lo mid t1 -> climbs mid hi t2 -> climbs lo hi (t1 ++ t2).
Proof.
  unfold climbs. rewrite ranks_app. intros Hle [S1 F1] [S2 F2].
  split.
  - induction (ranks t1) as [|r l IH]; [exact S2|].
    cbn [app]. inversion S1 as [|? ? Sl Hr]; subst.
    inversion F1 as [|? ? Hr1 Fl]; subst.
    constructor; [now apply IH|].
    apply Forall_app. split; [exact Hr|].
    rewrite Forall_forall in F2 |- *. intros x Hx.
    specialize (F2 x Hx). lia.
  - apply Forall_app. split.
    + rewrite Forall_forall in F1 |- *. intros x Hx.
      specialize (F1 x Hx). lia.
    + rewrite Forall_forall in F2 |- *. intros x Hx.
      specialize (F2 x Hx). lia.
Qed.

Lemma climbs_bind {A C} lo mid hi (m : proc A) (k : A -> proc C) :
  lo <= mid <= hi ->
  climbs lo mid (fst m) ->
  (forall a, climbs mid hi (fst (k a))) ->
  climbs lo hi (fst (bind m k)).
Proof.
  intros Hle Hm Hk. destruct m as [t [a| |]]; cbn [fst bind] in *.
  - specialize (Hk a). destruct (k a) as [t' o]. cbn [fst] in *.
    now apply (climbs_app lo mid hi).
  - rewrite <- (app_nil_r t). apply (climbs_app lo mid hi); auto.
    split; constructor.
  - rewrite <- (app_nil_r t). apply (climbs_app lo mid hi); auto.
    split; constructor.
Qed.

Lemma climbs_go {A} lo hi (m : proc A) :
  climbs lo hi (fst m) -> climbs lo hi (go m).
Proof.
  destruct m as [t [a|e|]]; cbn [fst go]; auto.
  intros H. unfold climbs in *. rewrite ranks_app. cbn.
  now rewrite app_nil_r.
Qed.

Lemma climbs_nil lo hi : climbs lo hi [].
Proof. split; constructor. Qed.

Lemma climbs_one lo hi e n :
  rank e = Some n -> lo <= n < hi -> climbs lo hi [e].
Proof.
  intros He Hn. unfold climbs, ranks. cbn. rewrite He. cbn.
  split; repeat constructor; lia.
Qed.

(** One step along a piece of the action, choosing where the sequence is
    cut from the rank of the event emitted. *)
Ltac climbs_step :=
  lazymatch goal with
  | |- climbs ?lo ?hi (fst (bind (emit ?e) _)) =>
      let r := eval cbv in (rank e) in
      lazymatch r with
      | Some ?n =>
          apply (climbs_bind lo (S n) hi);
          [lia | apply (climbs_one lo (S n) e n); [reflexivity | lia]
          | intros]
      | None =>
          apply (climbs_bind lo lo hi); [lia | apply climbs_nil | intros]
      end
  | |- climbs ?lo ?hi (fst (bind (lift ?r) _)) =>
      apply (climbs_bind lo lo hi);
      [lia | destruct r; apply climbs_nil | intros]
  | |- climbs ?lo ?hi (fst (bind (ret _) _)) =>
      apply (climbs_bind lo lo hi); [lia | apply climbs_nil | intros]
  | |- climbs ?lo ?hi (fst (bind (match ?x with _ => _ end) _)) =>
      apply (climbs_bind lo lo hi); [lia | | intros]
  | |- climbs _ _ (fst (emit ?e)) =>
      let r := eval cbv in (rank e) in
      lazymatch r with
      | Some ?n => apply (climbs_one _ _ e n); [reflexivity | lia]
      | None => apply climbs_nil
      end
  | |- climbs _ _ (fst (ret _)) => apply climbs_nil
  | |- climbs _ _ (fst park) => apply climbs_nil
  | |- climbs _ _ (fst (lift ?r)) => destruct r; apply climbs_nil
  | |- climbs _ _ (fst (putAsync ?v)) => destruct v; cbn [putAsync]
  | |- climbs _ _ (fst (match ?x with _ => _ end)) => destruct x
  end.

Section Order.
Variable B : Builtins.
Variable actionContext : ActionContext.
Variable model : Model.

Lemma getMetricFromDatabase_climbs :
  climbs 1 2 (fst (getMetricFromDatabase B actionContext model)).
Proof. unfold getMetricFromDatabase. repeat climbs_step. Qed.

Lemma getMetricStatsFromFilesystem_climbs :
  climbs 2 3 (fst (getMetricStatsFromFilesystem actionContext model)).
Proof. unfold getMetricStatsFromFilesystem. repeat climbs_step. Qed.

Lemma putMetricStatsIntoDatabase_climbs metric :
  climbs 3 4 (fst (putMetricStatsIntoDatabase actionContext metric)).
Proof. unfold putMetricStatsIntoDatabase. repeat climbs_step. Qed.

Lemma getMetricDataFromDatabase_climbs :
  climbs 6 7 (fst (getMetricDataFromDatabase B actionContext model)).
Proof. unfold getMetricDataFromDatabase. repeat climbs_step. Qed.

Lemma resolveStats_climbs id :
  climbs 1 4 (fst (resolveStats B actionContext model id)).
Proof.
  unfold resolveStats.
  repeat first
    [ apply (climbs_bind 1 1 4); [lia | apply climbs_nil | intros]
    | apply (climbs_bind 1 2 4);
      [lia | exact getMetricFromDatabase_climbs | intros]
    | apply (climbs_bind 2 3 4);
      [lia | exact getMetricStatsFromFilesystem_climbs | intros]
    | apply (climbs_bind 3 4 4);
      [lia | apply putMetricStatsIntoDatabase_climbs | intros]
    | climbs_step ].
Qed.

Lemma onData_unranked vars error data :
  quiet unranked (onData B actionContext model vars error data).
Proof. unfold onData. repeat quiet_step. Qed.

Lemma calls_unranked cs : forall vars,
  forallb unranked (calls B actionContext model vars cs) = true.
Proof.
  induction cs as [|c cs IH]; intros vars; [reflexivity|].
  cbn [calls]. unfold call.
  pose proof (onData_unranked vars (fst c) (snd c)) as H. unfold quiet in H.
  destruct (onData B actionContext model vars (fst c) (snd c)) as [t [v|e|]];
    cbn [fst] in H; rewrite ?forallb_app, ?H, ?IH; reflexivity.
Qed.

Lemma forEach_unranked l : quiet unranked (forEach (replayRow B model) l).
Proof.
  induction l as [|row l IH]; [reflexivity|].
  cbn [forEach]. apply quiet_bind; [|intros; exact IH].
  unfold replayRow. repeat quiet_step.
Qed.

Lemma streamData_go_climbs :
  climbs 6 8 (go (streamData_go B actionContext model)).
Proof.
  apply climbs_go. unfold streamData_go.
  apply (climbs_bind 6 6 8); [lia | apply climbs_nil | intros].
  apply (climbs_bind 6 7 8);
    [lia | exact getMetricDataFromDatabase_climbs | intros metricData].
  destruct (instanceofError metricData); [repeat climbs_step|].
  apply (climbs_bind 7 7 8);
    [lia | destruct (length_gt0 B metricData); apply climbs_nil
    | intros cached].
  destruct cached.
  - apply (climbs_bind 7 7 8); [lia | apply climbs_nil | intros].
    apply (climbs_bind 7 7 8); [lia | | intros; repeat climbs_step].
    destruct metricData; try apply climbs_nil.
    apply climbs_unranked, forEach_unranked.
  - apply (climbs_bind 7 7 8); [lia | apply climbs_nil | intros].
    apply (climbs_bind 7 8 8);
      [lia | apply (climbs_one 7 8 _ 7); [reflexivity | lia] | intros].
    apply climbs_unranked, calls_unranked.
Qed.

End Order.

Lemma sorted_once (f : event -> bool) (r : nat) (t : trace) :
  (forall e, f e = true -> rank e = Some r) ->
  StronglySorted lt (ranks t) -> count f t <= 1.
Proof.
  intros Hf. unfold count.
  assert (Hnone : forall t', Forall (lt r) (ranks t') -> filter f t' = []).
  { induction t' as [|e t' IH]; [reflexivity|].
    unfold ranks. cbn [flat_map filter]. fold (ranks t').
    destruct (f e) eqn:He.
    - rewrite (Hf e He). cbn [app]. intros H. inversion H; subst. lia.
    - intros H. apply IH. apply Forall_app in H. tauto. }
  induction t as [|e t IH]; [cbn; lia|].
  unfold ranks. cbn [flat_map filter]. fold (ranks t).
  destruct (f e) eqn:He.
  - rewrite (Hf e He). cbn [app]. intros H. inversion H; subst.
    rewrite (Hnone t) by assumption. cbn. lia.
  - intros H. apply IH.
    destruct (rank e); [|exact H]. cbn [app] in H. now inversion H.
Qed.

(** X5.  Whatever the collaborators answer, the action calls them in one
    order: [getMetric], then [getStatistics], then [putMetric], then the
    [START_MODEL_SUCCESS] dispatch, then [createModel], then
    [getMetricDatas], then [getData]; none of these happens twice, and none
    after a later one. *)
Theorem collaborators_called_in_order
    (B : Builtins) (actionContext : ActionContext) (id : string) :
  StronglySorted lt (ranks (StartModel B actionContext id))
  /\ count is_getStatistics (StartModel B actionContext id) <= 1
  /\ count is_putMetric (StartModel B actionContext id) <= 1
  /\ count is_createModel (StartModel B actionContext id) <= 1.
Proof.
  assert (H : climbs 1 8 (StartModel B actionContext id)).
  { unfold StartModel. apply climbs_go. unfold StartModel_go.
    apply (climbs_bind 1 4 8); [lia | apply resolveStats_climbs |].
    intros [stats|]; [|apply climbs_nil].
    apply (climbs_bind 4 4 8); [lia | apply climbs_nil | intros].
    apply (climbs_bind 4 5 8);
      [lia | apply (climbs_one 4 5 _ 4); [reflexivity | lia] | intros].
    apply (climbs_bind 5 6 8);
      [lia | apply (climbs_one 5 6 _ 5); [reflexivity | lia] | intros].
    apply streamData_go_climbs. }
  destruct H as [Hsorted _].
  split; [exact Hsorted|].
  split; [|split].
  - apply (sorted_once is_getStatistics 2); [|exact Hsorted].
    intros []; cbn; congruence.
  - apply (sorted_once is_putMetric 3); [|exact Hsorted].
    intros []; cbn; congruence.
  - apply (sorted_once is_createModel 5); [|exact Hsorted].
    intros []; cbn; congruence.
Qed.

(** ** [streamData] when the database cannot give the cached rows *)

(** X6.  When the database reports an error for the cached rows,
    [streamData] rejects its promise with that error wrapped in a
    [DatabaseGetError], prints it, and does nothing else: the file is not
    read and nothing reaches the sink. *)
Theorem cached_rows_failure_rejects
    (B : Builtins) (actionContext : ActionContext) (id : string)
    (error results : value) :
  let model := getModel actionContext id in
  getMetricDatas actionContext
    (VObj CObject
       [("metric_uid",
         VStr (generateModelId B (filename model) (metric model)))])
    = Some (error, results) ->
  truthy error = true ->
  streamData B actionContext id =
    [LogDebug "see if metric data is already saved in DB first";
     GetMetricDatas
       (VObj CObject
          [("metric_uid",
            VStr (generateModelId B (filename model) (metric model)))]);
     Reject StreamDataPromise (DatabaseGetError error);
     ConsoleError (DatabaseGetError error)]
  /\ settled StreamDataPromise (streamData B actionContext id)
     = Rejected (DatabaseGetError error).
Proof.
  intros model Hget Herror.
  assert (Ht : streamData B actionContext id =
    [LogDebug "see if metric data is already saved in DB first";
     GetMetricDatas
       (VObj CObject
          [("metric_uid",
            VStr (generateModelId B (filename model) (metric model)))]);
     Reject StreamDataPromise (DatabaseGetError error);
     ConsoleError (DatabaseGetError error)]).
  { unfold streamData, streamData_go, getMetricDataFromDatabase. fold model.
    rewrite Hget, Herror. reflexivity. }
  split; [exact Ht|]. rewrite Ht. reflexivity.
Qed.

(** The sample database failing on the cached rows. *)
Lemma cached_rows_failure_rejects_sample :
  settled StreamDataPromise
    (streamData Sample.builtins
       (MoreSamples.rowsUnavailable (Sample.ioError, VUndef))
       "file.csv!value")
  = Rejected (DatabaseGetError Sample.ioError).
Proof.
  exact (proj2
    (cached_rows_failure_rejects Sample.builtins
       (MoreSamples.rowsUnavailable (Sample.ioError, VUndef))
       "file.csv!value" Sample.ioError VUndef eq_refl eq_refl)).
Defined.

(** X7.  When the database answers without error but with something
    [JSON.parse] rejects, the exception is thrown inside the database
    client's callback: nothing is put on the channel, so [streamData] does
    nothing more and its promise is never settled. *)
Theorem unparseable_cache_never_settles
    (B : Builtins) (actionContext : ActionContext) (id : string)
    (error results : value) :
  let model := getModel actionContext id in
  getMetricDatas actionContext
    (VObj CObject
       [("metric_uid",
         VStr (generateModelId B (filename model) (metric model)))])
    = Some (error, results) ->
  truthy error = false ->
  JSON_parse B results = None ->
  streamData B actionContext id =
    [LogDebug "see if metric data is already saved in DB first";
     GetMetricDatas
       (VObj CObject
          [("metric_uid",
            VStr (generateModelId B (filename model) (metric model)))]);
     Uncaught (SyntaxError "JSON.parse")]
  /\ settled StreamDataPromise (streamData B actionContext id) = Pending.
Proof.
  intros model Hget Herror Hparse.
  assert (Ht : streamData B actionContext id =
    [LogDebug "see if metric data is already saved in DB first";
     GetMetricDatas
       (VObj CObject
          [("metric_uid",
            VStr (generateModelId B (filename model) (metric model)))]);
     Uncaught (SyntaxError "JSON.parse")]).
  { unfold streamData, streamData_go, getMetricDataFromDatabase. fold model.
    rewrite Hget, Herror, Hparse. reflexivity. }
  split; [exact Ht|]. rewrite Ht. reflexivity.
Qed.

(** The sample database answering with a truncated document. *)
Lemma unparseable_cache_never_settles_sample :
  settled StreamDataPromise
    (streamData Sample.builtins
       (MoreSamples.rowsUnavailable (VNull, VStr "[{"))
       "file.csv!value")
  = Pending.
Proof.
  exact (proj2
    (unparseable_cache_never_settles Sample.builtins
       (MoreSamples.rowsUnavailable (VNull, VStr "[{"))
       "file.csv!value" VNull (VStr "[{") eq_refl eq_refl eq_refl)).
Defined.

(** ** The callback, whatever the file client does *)

Section AnyCalls.
Variable B : Builtins.
Variable actionContext : ActionContext.
Variable model : Model.

(** Branch on everything the callback branches on. *)
Ltac callback_cases :=
  repeat match goal with
         | |- context [match JSON_parse B ?d with _ => _ end] =>
             destruct (JSON_parse B d)
         | |- context [lift (get ?v ?k)] => destruct (get v k)
         | |- context [lift (Date_toISOString B ?t)] =>
             destruct (Date_toISOString B t)
         | |- context [push (VStr ?s) ?x] =>
             change (push (VStr s) x)
               with (@Throw value (TypeError "push is not a function"))
         | |- context [lift (push ?a ?x)] => destruct (push a x)
         | |- context [match putMetricDatas actionContext ?b with _ => _ end] =>
             destruct (putMetricDatas actionContext b)
         | |- context [if truthy ?v then _ else _] => destruct (truthy v)
         | _ => progress cbn [bind emit ret lift app fst snd]
         end.

(** One call: a stop-model exactly for an error, a batch write exactly for
    the end of data, a sink event at most for data. *)
Lemma call_counts vars c :
  count is_stop (fst (call B actionContext model vars c))
  = (if isErrorCall c then 1 else 0)
  /\ count is_putMetricDatas (fst (call B actionContext model vars c))
     = (if isEnd c then 1 else 0)
  /\ count is_send (fst (call B actionContext model vars c))
     <= (if isDataCall c then 1 else 0).
Proof.
  destruct c as [error data].
  unfold call, onData, isErrorCall, isEnd, isDataCall. cbn [fst snd].
  destruct (truthy error); [cbn; lia|].
  destruct (truthy data); cbn [negb andb]; callback_cases;
    cbn; repeat split; lia.
Qed.

Lemma calls_counts cs : forall vars,
  count is_stop (calls B actionContext model vars cs)
  = List.length (filter isErrorCall cs)
  /\ count is_putMetricDatas (calls B actionContext model vars cs)
     = List.length (filter isEnd cs)
  /\ count is_send (calls B actionContext model vars cs)
     <= List.length (filter isDataCall cs).
Proof.
  induction cs as [|c cs IH]; intros vars; [cbn; repeat split; lia|].
  cbn [calls filter].
  pose proof (call_counts vars c) as (H1 & H2 & H3).
  destruct (call B actionContext model vars c) as [t vars'].
  cbn [fst] in *. destruct (IH vars') as (I1 & I2 & I3).
  rewrite !count_app, H1, H2, I1, I2.
  destruct (isErrorCall c), (isEnd c), (isDataCall c); cbn [List.length];
    repeat split; lia.
Qed.

(** Once the rows have been stringified, they stay a string and nothing is
    sent any more. *)
Lemma call_after_end vars c s :
  rows vars = VStr s ->
  filter is_send (fst (call B actionContext model vars c)) = []
  /\ exists s', rows (snd (call B actionContext model vars c)) = VStr s'.
Proof.
  intros Hrows. destruct c as [error data].
  unfold call, onData. cbn [fst snd]. rewrite Hrows.
  destruct (truthy error); [cbn; rewrite Hrows; eauto|].
  destruct (truthy data); callback_cases; cbn [push] in *;
    cbn; rewrite ?Hrows; eauto.
Qed.

Lemma calls_after_end cs : forall vars s,
  rows vars = VStr s ->
  filter is_send (calls B actionContext model vars cs) = [].
Proof.
  induction cs as [|c cs IH]; intros vars s Hrows; [reflexivity|].
  cbn [calls].
  destruct (call_after_end vars c s Hrows) as (Hc & s' & Hs').
  destruct (call B actionContext model vars c) as [t vars'].
  cbn [fst snd] in *. rewrite filter_app, Hc. exact (IH vars' s' Hs').
Qed.

(** A record whose timestamp is not a date is dropped by the exception
    [toISOString] throws. *)
Lemma call_undated vars error data row :
  truthy error = false ->
  truthy data = true ->
  JSON_parse B data = Some row ->
  isRow row = true ->
  PrimFloat.is_nan (Date_time B (field row (timestampField model)))
  || PrimFloat.is_infinity (Date_time B (field row (timestampField model)))
  = true ->
  call B actionContext model vars (error, data)
  = ([Uncaught (RangeError "Invalid time value")], vars).
Proof.
  intros He Hd Hp Hrow Hts. unfold call, onData. cbn [fst snd].
  rewrite He, Hd, Hp. cbn [bind ret lift app].
  rewrite (get_isRow row _ Hrow). cbn [bind ret lift app].
  rewrite (get_isRow row _ Hrow). cbn [bind ret lift app].
  unfold Date_toISOString. rewrite Hts. reflexivity.
Qed.

End AnyCalls.

(** ** Streaming, whatever the file client does *)

Lemma opening_counts (B : Builtins) (model : Model) :
  filter is_send (opening B model) = []
  /\ filter is_stop (opening B model) = []
  /\ filter is_putMetricDatas (opening B model) = [].
Proof. repeat split; reflexivity. Qed.

(** Records, then the end of data, then anything. *)
Lemma streamData_records_then_end
    (B : Builtins) (actionContext : ActionContext) (model : Model)
    (cs rest : list (value * value)) (last : value * value) :
  cachedRows B actionContext model = Some [] ->
  getData actionContext (filename model) = cs ++ last :: rest ->
  forallb (isRecord B model) cs = true ->
  isEnd last = true ->
  go (streamData_go B actionContext model) =
    opening B model
    ++ flat_map (fun c => LogDebug "send row to UI" :: sendOf B model c) cs
    ++ [LogDebug "End of data - Save to DB for future runs.";
        PutMetricDatas (batch B model cs)]
    ++ completion actionContext model (batch B model cs)
    ++ calls B actionContext model
         {| rowId := rowIdAfter B model 0 cs;
            rows := batch B model cs |} rest.
Proof.
  intros Hcache Hdata Hrecords Hend.
  rewrite streamData_go_nothing_cached by assumption.
  rewrite Hdata, calls_records by assumption.
  destruct last as [e d]. unfold isEnd in Hend. cbn [fst snd] in Hend.
  apply andb_true_iff in Hend as [He Hd].
  apply negb_true_iff in He. apply negb_true_iff in Hd.
  cbn [calls]. unfold call. cbn [fst snd].
  rewrite onData_end by assumption. cbn [rows rowId app].
  rewrite <- ?app_assoc. reflexivity.
Qed.

(** X8.  When the file has been read to its end and the database reports
    an error for the batch write, [streamData] rejects its promise with that
    very error (it is not wrapped), after every record has been sent to the
    sink. *)
Theorem batch_write_failure_rejects
    (B : Builtins) (actionContext : ActionContext) (id : string)
    (cs rest : list (value * value)) (last : value * value) (error : value) :
  let model := getModel actionContext id in
  cachedRows B actionContext model = Some [] ->
  getData actionContext (filename model) = cs ++ last :: rest ->
  forallb (isRecord B model) cs = true ->
  isEnd last = true ->
  putMetricDatas actionContext (batch B model cs) = Some error ->
  truthy error = true ->
  settled StreamDataPromise (streamData B actionContext id) = Rejected error
  /\ exists before after,
       streamData B actionContext id
       = before ++ Reject StreamDataPromise error :: after
       /\ filter is_send before = flat_map (sendOf B model) cs.
Proof.
  intros model Hcache Hdata Hrecords Hend Hput Herror.
  unfold streamData. fold model.
  rewrite (streamData_records_then_end B actionContext model cs rest last)
    by assumption.
  unfold completion. rewrite Hput, Herror.
  destruct (filter_send_records B model cs Hrecords) as [Hsends _].
  split.
  - rewrite app_assoc. rewrite settled_app_quiet; [reflexivity|].
    rewrite forallb_app, records_quiet. reflexivity.
  - exists (opening B model
            ++ flat_map
                 (fun c => LogDebug "send row to UI" :: sendOf B model c) cs
            ++ [LogDebug "End of data - Save to DB for future runs.";
                PutMetricDatas (batch B model cs)]),
           (calls B actionContext model
              {| rowId := rowIdAfter B model 0 cs;
                 rows := batch B model cs |} rest).
    split; [now rewrite <- !app_assoc|].
    rewrite !filter_app, Hsends. cbn. now rewrite app_nil_r.
Qed.

(** The sample database refusing the batch. *)
Lemma batch_write_failure_rejects_sample :
  settled StreamDataPromise
    (streamData Sample.builtins MoreSamples.readOnly "file.csv!value")
  = Rejected Sample.ioError.
Proof.
  exact (proj1
    (batch_write_failure_rejects Sample.builtins MoreSamples.readOnly
       "file.csv!value"
       [(VNull, VStr Sample.record1_text); (VNull, VStr Sample.record2_text)]
       [] (VNull, VNull) Sample.ioError
       eq_refl eq_refl eq_refl eq_refl eq_refl eq_refl)).
Defined.

(** X9.  When nothing is cached, whatever calls the file client makes:
    the stop-model action is executed once for each call that carries an
    error, [putMetricDatas] is called once for each call that carries
    neither error nor data, and the sink receives at most one event for
    each call that carries data. *)
Theorem callbacks_are_counted
    (B : Builtins) (actionContext : ActionContext) (id : string) :
  let model := getModel actionContext id in
  cachedRows B actionContext model = Some [] ->
  count is_stop (streamData B actionContext id)
  = List.length (filter isErrorCall (getData actionContext (filename model)))
  /\ count is_putMetricDatas (streamData B actionContext id)
     = List.length (filter isEnd (getData actionContext (filename model)))
  /\ count is_send (streamData B actionContext id)
     <= List.length
          (filter isDataCall (getData actionContext (filename model))).
Proof.
  intros model Hcache. unfold streamData. fold model.
  rewrite streamData_go_nothing_cached by assumption.
  rewrite !count_app.
  destruct (calls_counts B actionContext model
              (getData actionContext (filename model))
              {| rowId := 0; rows := VArr [] |}) as (H1 & H2 & H3).
  rewrite H1, H2. cbn. repeat split; lia.
Qed.

(** The sample file client that goes on after the end of data. *)
Lemma callbacks_are_counted_sample :
  count is_putMetricDatas
    (streamData Sample.builtins MoreSamples.talkative "file.csv!value") = 2.
Proof.
  exact (proj1 (proj2
    (callbacks_are_counted Sample.builtins MoreSamples.talkative
       "file.csv!value" eq_refl))).
Defined.

(** X10.  Once the end of data has been signalled, nothing is sent to the
    sink any more, whatever the file client goes on to deliver: the sink
    events of the run are those of the records that came before. *)
Theorem nothing_sent_after_end_of_data
    (B : Builtins) (actionContext : ActionContext) (id : string)
    (cs rest : list (value * value)) (last : value * value) :
  let model := getModel actionContext id in
  cachedRows B actionContext model = Some [] ->
  getData actionContext (filename model) = cs ++ last :: rest ->
  forallb (isRecord B model) cs = true ->
  isEnd last = true ->
  filter is_send (streamData B actionContext id)
  = flat_map (sendOf B model) cs
  /\ count is_send (streamData B actionContext id) = List.length cs.
Proof.
  intros model Hcache Hdata Hrecords Hend.
  assert (H : filter is_send (streamData B actionContext id)
              = flat_map (sendOf B model) cs).
  { unfold streamData. fold model.
    rewrite (streamData_records_then_end B actionContext model cs rest last)
      by assumption.
    destruct (filter_send_records B model cs Hrecords) as [Hsends _].
    rewrite !filter_app, Hsends.
    rewrite completion_quiet by reflexivity.
    rewrite (calls_after_end B actionContext model rest
               {| rowId := rowIdAfter B model 0 cs;
                  rows := batch B model cs |}
               (JSON_stringify B (VArr (rowsOf B model 0 cs))) eq_refl).
    cbn. now rewrite app_nil_r. }
  split; [exact H|]. unfold count. rewrite H.
  exact (proj2 (filter_send_records B model cs Hrecords)).
Qed.

(** The sample file client that goes on after the end of data: only the
    first record reaches the sink. *)
Lemma nothing_sent_after_end_of_data_sample :
  count is_send
    (streamData Sample.builtins MoreSamples.talkative "file.csv!value") = 1.
Proof.
  exact (proj2
    (nothing_sent_after_end_of_data Sample.builtins MoreSamples.talkative
       "file.csv!value" [(VNull, VStr Sample.record1_text)]
       [(VNull, VStr Sample.record2_text); (VNull, VNull)] (VNull, VNull)
       eq_refl eq_refl eq_refl eq_refl)).
Defined.

(** X11.  A record that parses but whose timestamp field does not give a
    valid date is dropped: [toISOString] throws a [RangeError] into the
    file client, nothing is sent, queued or numbered, and the calls that
    follow are handled as if this one had not been made. *)
Theorem undated_record_is_dropped
    (B : Builtins) (actionContext : ActionContext) (model : Model)
    (vars : StreamVars) (error data row : value)
    (rest : list (value * value)) :
  truthy error = false ->
  truthy data = true ->
  JSON_parse B data = Some row ->
  isRow row = true ->
  PrimFloat.is_nan (Date_time B (field row (timestampField model)))
  || PrimFloat.is_infinity (Date_time B (field row (timestampField model)))
  = true ->
  calls B actionContext model vars ((error, data) :: rest)
  = Uncaught (RangeError "Invalid time value")
    :: calls B actionContext model vars rest.
Proof.
  intros He Hd Hp Hrow Hts. cbn [calls].
  rewrite (call_undated B actionContext model vars error data row)
    by assumption.
  reflexivity.
Qed.

(** The sample record without a timestamp, between two good ones. *)
Lemma undated_record_is_dropped_sample :
  calls Sample.builtins MoreSamples.undated Sample.model
    {| rowId := 1; rows := VArr [] |}
    [(VNull, VStr Sample.record3_text); (VNull, VNull)]
  = Uncaught (RangeError "Invalid time value")
    :: calls Sample.builtins MoreSamples.undated Sample.model
         {| rowId := 1; rows := VArr [] |} [(VNull, VNull)].
Proof.
  exact (undated_record_is_dropped Sample.builtins MoreSamples.undated
           Sample.model {| rowId := 1; rows := VArr [] |}
           VNull (VStr Sample.record3_text) Sample.record3 [(VNull, VNull)]
           eq_refl eq_refl eq_refl eq_refl eq_refl).
Defined.

(** ** Replay, whatever the cache holds *)

Lemma forEach_stops (B : Builtins) (model : Model) (pre post : list value)
    (bad : value) :
  forallb isRow pre = true ->
  isRow bad = false ->
  forEach (replayRow B model) (pre ++ bad :: post) =
    (map (replayOf B model) pre,
     Threw (TypeError "Cannot read property of undefined or null")).
Proof.
  intros Hpre Hbad. induction pre as [|row pre IH].
  - cbn [app forEach map]. unfold replayRow.
    destruct bad; try discriminate; reflexivity.
  - cbn [forallb] in Hpre. apply andb_true_iff in Hpre as [Hrow Hpre].
    cbn [app forEach map]. rewrite (IH Hpre).
    unfold replayRow, replayOf.
    rewrite !(get_isRow row _ Hrow). reflexivity.
Qed.

(** X12.  When a cached row is [null], the replay stops there: the rows
    before it have been sent, those after it are not, and the promise of
    [streamData] is never settled (the go-block dies of the [TypeError]). *)
Theorem null_row_aborts_replay
    (B : Builtins) (actionContext : ActionContext) (id : string)
    (pre post : list value) (bad : value) :
  let model := getModel actionContext id in
  cachedRows B actionContext model = Some (pre ++ bad :: post) ->
  forallb isRow pre = true ->
  isRow bad = false ->
  streamData B actionContext id =
    [LogDebug "see if metric data is already saved in DB first";
     GetMetricDatas
       (VObj CObject
          [("metric_uid",
            VStr (generateModelId B (filename model) (metric model)))]);
     LogDebug "yes metric data is already in DB, use it"]
    ++ map (replayOf B model) pre
    ++ [Uncaught (TypeError "Cannot read property of undefined or null")]
  /\ settled StreamDataPromise (streamData B actionContext id) = Pending.
Proof.
  intros model Hcache Hpre Hbad.
  assert (Ht : streamData B actionContext id =
    [LogDebug "see if metric data is already saved in DB first";
     GetMetricDatas
       (VObj CObject
          [("metric_uid",
            VStr (generateModelId B (filename model) (metric model)))]);
     LogDebug "yes metric data is already in DB, use it"]
    ++ map (replayOf B model) pre
    ++ [Uncaught (TypeError "Cannot read property of undefined or null")]).
  { unfold streamData, streamData_go, getMetricDataFromDatabase. fold model.
    unfold cachedRows in Hcache.
    destruct (getMetricDatas actionContext _) as [[error results]|];
      [|discriminate].
    destruct (truthy error); [discriminate|].
    destruct (JSON_parse B results) as [[| | | | |l|]|]; try discriminate.
    injection Hcache as ->.
    assert (Hlen : length_gt0 B (VArr (pre ++ bad :: post)) = Ok true)
      by (destruct pre; reflexivity).
    cbn [bind emit putAsync ret instanceofError app].
    rewrite Hlen. cbn [bind emit lift ret app].
    rewrite (forEach_stops B model pre post bad Hpre Hbad).
    cbn [go app]. rewrite <- ?app_assoc. reflexivity. }
  split; [exact Ht|]. rewrite Ht.
  apply settled_quiet. rewrite !forallb_app, replay_quiet. reflexivity.
Qed.

(** The sample cache with a hole. *)
Lemma null_row_aborts_replay_sample :
  count is_send
    (streamData MoreSamples.builtins MoreSamples.holed "file.csv!value") = 1
  /\ settled StreamDataPromise
       (streamData MoreSamples.builtins MoreSamples.holed "file.csv!value")
     = Pending.
Proof.
  destruct (null_row_aborts_replay MoreSamples.builtins MoreSamples.holed
              "file.csv!value" [Sample.cachedRow1] [Sample.cachedRow2] VNull
              eq_refl eq_refl eq_refl) as [Ht Hs].
  split; [rewrite Ht; reflexivity | exact Hs].
Defined.

Lemma forEach_sends_only (B : Builtins) (model : Model) (l : list value) :
  quiet (fun e => is_send e || match e with Uncaught _ => true | _ => false end)
    (forEach (replayRow B model) l).
Proof.
  induction l as [|row l IH]; [reflexivity|].
  cbn [forEach]. apply quiet_bind; [|intros; exact IH].
  unfold replayRow. repeat quiet_step.
Qed.

Lemma quiet_bind_done {A C} (P : event -> bool) (m : proc A)
    (k : A -> proc C) (t : trace) (a : A) :
  m = (t, Done a) -> forallb P t = true -> quiet P (k a) ->
  quiet P (bind m k).
Proof.
  intros -> Ht Hk. unfold quiet in *. cbn [bind].
  destruct (k a) as [t' o]. cbn [fst] in *. now rewrite forallb_app, Ht, Hk.
Qed.

Lemma sends_only_no_io e :
  is_send e || match e with Uncaught _ => true | _ => false end = true ->
  negb (is_filesystem e || is_putMetricDatas e) = true.
Proof.
  destruct e; try discriminate; reflexivity.
Qed.

(** X13.  Whenever the database returns a non-empty list of rows, whatever
    the rows are, [streamData] neither reads the file nor writes to the
    database: no [getData], no [getStatistics], no [putMetricDatas]. *)
Theorem nonempty_cache_reads_and_writes_nothing
    (B : Builtins) (actionContext : ActionContext) (id : string)
    (cachedList : list value) :
  let model := getModel actionContext id in
  cachedRows B actionContext model = Some cachedList ->
  cachedList <> [] ->
  count is_filesystem (streamData B actionContext id) = 0
  /\ count is_putMetricDatas (streamData B actionContext id) = 0.
Proof.
  intros model Hcache Hne.
  assert (H : forallb
                (fun e => negb (is_filesystem e || is_putMetricDatas e))
                (streamData B actionContext id) = true).
  { unfold streamData. fold model. apply quiet_go; [reflexivity|].
    unfold streamData_go, getMetricDataFromDatabase.
    unfold cachedRows in Hcache.
    destruct (getMetricDatas actionContext _) as [[error results]|];
      [|discriminate].
    destruct (truthy error); [discriminate|].
    destruct (JSON_parse B results) as [[| | | | |l|]|]; try discriminate.
    injection Hcache as ->. destruct cachedList as [|row l]; [congruence|].
    apply quiet_bind; [reflexivity|intros _].
    apply (quiet_bind_done _ _ _
             [GetMetricDatas
                (VObj CObject
                   [("metric_uid",
                     VStr (generateModelId B (filename model)
                             (metric model)))])]
             (VArr (row :: l))); [reflexivity|reflexivity|].
    cbn [instanceofError length_gt0 lift].
    apply (quiet_bind_done _ _ _ [] true); [reflexivity|reflexivity|].
    repeat first
      [ exact (quiet_impl _ _ _ sends_only_no_io
                 (forEach_sends_only B model (row :: l)))
      | quiet_step ]. }
  split; unfold count.
  - rewrite (forallb_filter_nil
               (fun e => negb (is_filesystem e || is_putMetricDatas e))
               is_filesystem); [reflexivity| |exact H].
    intros e He. destruct (is_filesystem e); [discriminate|reflexivity].
  - rewrite (forallb_filter_nil
               (fun e => negb (is_filesystem e || is_putMetricDatas e))
               is_putMetricDatas); [reflexivity| |exact H].
    intros e He. destruct (is_putMetricDatas e); [|reflexivity].
    rewrite orb_true_r in He. discriminate.
Qed.

(** The sample cache with a hole. *)
Lemma nonempty_cache_reads_and_writes_nothing_sample :
  count is_filesystem
    (streamData MoreSamples.builtins MoreSamples.holed "file.csv!value") = 0.
Proof.
  exact (proj1
    (nonempty_cache_reads_and_writes_nothing MoreSamples.builtins
       MoreSamples.holed "file.csv!value"
       [Sample.cachedRow1; VNull; Sample.cachedRow2]
       eq_refl ltac:(discriminate))).
Defined.

(** X14.  Whatever the collaborators answer, [streamData] stays on its side
    of the action: it never calls [getMetric], [getStatistics] or
    [putMetric], never dispatches or creates a model, and never settles the
    promise of the exported action. *)
Theorem streamData_stays_downstream
    (B : Builtins) (actionContext : ActionContext) (id : string) :
  filter is_upstream (streamData B actionContext id) = []
  /\ settled StartModelPromise (streamData B actionContext id) = Pending.
Proof.
  pose proof (streamData_go_events B actionContext
                (getModel actionContext id)) as H.
  fold (streamData B actionContext id) in H.
  split.
  - apply (forallb_filter_nil streams is_upstream); [|exact H].
    intros [] ?; cbn in *; auto; try discriminate; destruct p; auto.
  - apply settled_quiet.
    exact (forallb_weaken _ _ _ streams_untouched H).
Qed.

(* ================================================================== *)
(** * Further properties of the chart *)
(* ================================================================== *)

Import ChartLifecycle.

Lemma get_isPoint (p : value) (k : string) :
  get p k = if Chart.isPoint p then Ok (field p k)
            else Throw (TypeError "Cannot read property of undefined or null").
Proof.
  unfold field. destruct p; cbn [Chart.isPoint get]; try reflexivity;
    repeat match goal with
           | |- context [if ?c then _ else _] => destruct c
           end; reflexivity.
Qed.

(** X15.  [componentDidMount] returns normally exactly when there is no
    data at all or the first two points are there and readable; in every
    other case ([data] of one point, or a first or second point that is
    [null]) it throws. *)
Theorem mount_succeeds_iff (B : Builtins) (this : Chart.Chart) :
  snd (Chart.componentDidMount B this) = None <->
  (Chart.data (Chart.props this) = []
   \/ exists p0 p1 rest,
        Chart.data (Chart.props this) = p0 :: p1 :: rest
        /\ Chart.isPoint p0 = true /\ Chart.isPoint p1 = true).
Proof.
  unfold Chart.componentDidMount, Chart._chartInitalize.
  cbn [Chart.mounted Chart.props].
  destruct (Chart.data (Chart.props this)) as [|p0 [|p1 rest]]; cbn [nth snd].
  - split; [now left | reflexivity].
  - rewrite (get_isPoint p0), (get_isPoint VUndef). cbn [Chart.isPoint].
    split.
    + destruct (Chart.isPoint p0); discriminate.
    + intros [H | (q0 & q1 & r & H & _)]; discriminate.
  - rewrite (get_isPoint p0), (get_isPoint p1). split.
    + destruct (Chart.isPoint p0) eqn:H0; [|discriminate].
      destruct (Chart.isPoint p1) eqn:H1; [|discriminate].
      intros _. right. exists p0, p1, rest. auto.
    + intros [H | (q0 & q1 & r & H & H0 & H1)]; [discriminate|].
      injection H as <- <- <-. now rewrite H0, H1.
Qed.

(** ** Options *)

Lemma lookup_assign1_same k v fields :
  lookup k (Chart.assign1 k v fields) = Some v.
Proof.
  induction fields as [|[k' v'] fields IH]; cbn.
  - now rewrite String.eqb_refl.
  - destruct (String.eqb k k') eqn:E; cbn.
    + now rewrite String.eqb_refl.
    + now rewrite E.
Qed.

Lemma lookup_assign1_other k k' v fields :
  k <> k' -> lookup k' (Chart.assign1 k v fields) = lookup k' fields.
Proof.
  intros Hne. induction fields as [|[k0 v0] fields IH]; cbn.
  - destruct (String.eqb k' k) eqn:E; [|reflexivity].
    apply String.eqb_eq in E. congruence.
  - destruct (String.eqb k k0) eqn:E; cbn.
    + apply String.eqb_eq in E. subst k0.
      destruct (String.eqb k' k) eqn:E'; [|reflexivity].
      apply String.eqb_eq in E'. congruence.
    + destruct (String.eqb k' k0); [reflexivity | exact IH].
Qed.

Lemma lookup_not_in k (fields : list (string * value)) :
  ~ In k (map fst fields) -> lookup k fields = None.
Proof.
  induction fields as [|[k' v'] fields IH]; cbn; [reflexivity|].
  intros H. destruct (String.eqb k k') eqn:E.
  - apply String.eqb_eq in E. subst. tauto.
  - apply IH. tauto.
Qed.

(** What [Object.assign] leaves under a key: the source's value if the
    source has the key, the target's otherwise. *)
Lemma lookup_Object_assign k source : forall target,
  NoDup (map fst source) ->
  lookup k (Chart.Object_assign target source) =
    match lookup k source with
    | Some v => Some v
    | None => lookup k target
    end.
Proof.
  unfold Chart.Object_assign.
  induction source as [|[k0 v0] source IH]; intros target Hnd;
    [reflexivity|].
  cbn [fold_left fst snd map] in *. inversion Hnd as [|? ? Hk0 Hnd']; subst.
  rewrite (IH _ Hnd'). cbn [lookup].
  destruct (String.eqb k k0) eqn:E.
  - apply String.eqb_eq in E. subst k0.
    rewrite (lookup_not_in _ _ Hk0). apply lookup_assign1_same.
  - destruct (lookup k source); [reflexivity|].
    apply lookup_assign1_other. intros ->. now rewrite String.eqb_refl in E.
Qed.

(** What the Dygraph built by [_chartInitalize] was given. *)
Lemma initialize_options (B : Builtins) (this this' : Chart.Chart) :
  Chart._chartInitalize B this = Ok this' ->
  NoDup (map fst (Chart.options (Chart.props this))) ->
  exists dygraph,
    Chart._dygraph this' = Some dygraph
    /\ Chart.file dygraph = Chart.data (Chart.props this)
    /\ (forall k v,
          lookup k (Chart.options (Chart.props this)) = Some v ->
          lookup k (Chart.dygraphOptions dygraph) = Some v)
    /\ (lookup "dateWindow" (Chart.options (Chart.props this)) = None ->
        lookup "dateWindow" (Chart.dygraphOptions dygraph)
        = Some (range_value (Chart._chartRange this'))).
Proof.
  unfold Chart._chartInitalize. intros H Hnd.
  destruct (get (nth 0 (Chart.data (Chart.props this)) VUndef) "0")
    as [d0|]; [|discriminate].
  destruct (get (nth 1 (Chart.data (Chart.props this)) VUndef) "0")
    as [d1|]; [|discriminate].
  injection H as <-. cbn [Chart._dygraph Chart._chartRange].
  eexists. split; [reflexivity|]. cbn [Chart.file Chart.dygraphOptions].
  split; [reflexivity|]. split.
  - intros k v Hk. rewrite lookup_Object_assign by assumption.
    now rewrite Hk.
  - intros Hk. rewrite lookup_Object_assign by assumption.
    rewrite Hk. reflexivity.
Qed.

(** X16.  When [_chartInitalize] returns, the Dygraph it built was given
    the component's data and every option of [props.options]; its
    [dateWindow] is the range the component computed and keeps in
    [_chartRange], unless [props.options] has a [dateWindow] of its own,
    which then is the one Dygraphs gets. *)
Theorem options_reach_dygraph
    (B : Builtins) (this this' : Chart.Chart) :
  Chart._chartInitalize B this = Ok this' ->
  NoDup (map fst (Chart.options (Chart.props this))) ->
  exists dygraph,
    Chart._dygraph this' = Some dygraph
    /\ Chart.file dygraph = Chart.data (Chart.props this)
    /\ (forall k v,
          lookup k (Chart.options (Chart.props this)) = Some v ->
          lookup k (Chart.dygraphOptions dygraph) = Some v)
    /\ (lookup "dateWindow" (Chart.options (Chart.props this)) = None ->
        lookup "dateWindow" (Chart.dygraphOptions dygraph)
        = Some (range_value (Chart._chartRange this'))).
Proof. exact (initialize_options B this this'). Qed.

(** The sample chart of two points: its labels reach Dygraphs. *)
Lemma options_reach_dygraph_sample :
  exists dygraph,
    Chart._dygraph (sampleChart 3) = Some dygraph
    /\ lookup "labels" (Chart.dygraphOptions dygraph)
       = Some (VArr [VStr "Time"; VStr "Value"])
    /\ lookup "dateWindow" (Chart.dygraphOptions dygraph)
       = Some (VArr [VNum 1000; VNum 3000]).
Proof.
  destruct (options_reach_dygraph Sample.builtins
              (Chart.mounted (Chart.new (threePoints 3) 2)) (sampleChart 3)
              eq_refl ltac:(repeat constructor; cbn; tauto))
    as (dygraph & Hd & _ & Hopts & Hwindow).
  exists dygraph. split; [exact Hd|]. split.
  - exact (Hopts "labels" _ eq_refl).
  - exact (Hwindow eq_refl).
Defined.

(** ** The date window of an update *)

Lemma ltb_irrefl (x : float) : PrimFloat.ltb x x = false.
Proof.
  rewrite ltb_spec. unfold SFltb, SFcompare.
  destruct (Prim2SF x) as [s|s| |s m e]; try reflexivity.
  - destruct s; reflexivity.
  - rewrite Z.compare_refl, Pos.compare_cont_refl. destruct s; reflexivity.
Qed.

(** The window never starts before the first point, and is either [width]
    from the first point on or [width] back from the point reached. *)
Lemma window_not_before_first (first rangeMax width : float) :
  PrimFloat.ltb (fst (window first rangeMax width)) first = false
  /\ (window first rangeMax width = (first, PrimFloat.add first width)
      \/ window first rangeMax width
         = (PrimFloat.sub rangeMax width, rangeMax)).
Proof.
  unfold window.
  destruct (PrimFloat.ltb (PrimFloat.sub rangeMax width) first) eqn:E;
    cbn [fst].
  - split; [apply ltb_irrefl | now left].
  - split; [exact E | now right].
Qed.

Lemma is_idle busy : idle busy = true -> busy <> Some true.
Proof. destruct busy as [[|]|]; cbn; congruence. Qed.

(** X17.  When [_chartUpdate] returns on a chart that is not busy, the
    window it has set (and given to Dygraphs as [dateWindow]) is this: with
    [rangeMax] the time of the data point whose index is
    [|metaData.length.model - 1|] and [width] the chart's range width, it
    is [rangeMax - width, rangeMax] unless that would start before the time
    of the first data point, and then it is [first, first + width]; in
    either case it does not start before the first point. *)
Theorem update_window_not_before_first
    (B : Builtins) (this this' : Chart.Chart) (u : Update) :
  idle (Chart._chartBusy this) = true ->
  _chartUpdate B this = (this', Ok u) ->
  let data := Chart.data (Chart.props this) in
  let first := Date_time B (field (nth 0 data VUndef) "0") in
  let anomalyCount :=
    PrimFloat.abs
      (PrimFloat.sub
         (ToNumber B
            (field (field (Chart.metaData (Chart.props this)) "length")
               "model")) 1) in
  let rangeMax := Date_time B (field (element data anomalyCount) "0") in
  let width := width_of (Chart._chartRangeWidth this) in
  exists lo hi,
    Chart._chartRange this' = Some (lo, hi)
    /\ lookup "dateWindow" (newOptions u) = Some (VArr [VNum lo; VNum hi])
    /\ PrimFloat.ltb lo first = false
    /\ ((PrimFloat.ltb (PrimFloat.sub rangeMax width) first = true
         /\ lo = first /\ hi = PrimFloat.add first width)
        \/ (PrimFloat.ltb (PrimFloat.sub rangeMax width) first = false
            /\ lo = PrimFloat.sub rangeMax width /\ hi = rangeMax)).
Proof.
  unfold _chartUpdate. intros Hidle H. rewrite Hidle in H.
  unfold field.
  destruct (get (Chart.metaData (Chart.props this)) "length") as [len|];
    [|discriminate].
  destruct (get len "model") as [m|]; [|discriminate].
  destruct (get (nth 0 (Chart.data (Chart.props this)) VUndef) "0") as [d0|];
    [|discriminate].
  destruct (get (element _ _) "0") as [d|]; [|discriminate].
  destruct (Chart._dygraph this) as [dygraph|]; [|discriminate].
  injection H as <- <-. cbn [Chart._chartRange newOptions]. cbv zeta.
  pose proof (window_not_before_first (Date_time B d0) (Date_time B d)
                (width_of (Chart._chartRangeWidth this))) as [Hlo _].
  unfold window in *.
  destruct (PrimFloat.ltb
              (PrimFloat.sub (Date_time B d)
                 (width_of (Chart._chartRangeWidth this)))
              (Date_time B d0)) eqn:E; cbn [fst] in Hlo.
  - exists (Date_time B d0),
      (PrimFloat.add (Date_time B d0)
         (width_of (Chart._chartRangeWidth this))).
    split; [reflexivity|]. split.
    + rewrite lookup_assign1_other by discriminate.
      rewrite lookup_assign1_same. reflexivity.
    + split; [exact Hlo|]. left. auto.
  - exists (PrimFloat.sub (Date_time B d)
              (width_of (Chart._chartRangeWidth this))), (Date_time B d).
    split; [reflexivity|]. split.
    + rewrite lookup_assign1_other by discriminate.
      rewrite lookup_assign1_same. reflexivity.
    + split; [exact Hlo|]. right. auto.
Qed.

(** The sample chart: with the model at its third point the window ends
    there; with the model at its second point it would start before the
    first point and so starts at it. *)
Lemma update_window_not_before_first_sample :
  Chart._chartRange (fst (_chartUpdate Sample.builtins (sampleChart 3)))
  = Some (PrimFloat.sub 3000 2000, 3000%float)
  /\ Chart._chartRange (fst (_chartUpdate Sample.builtins (sampleChart 2)))
     = Some (1000%float, PrimFloat.add 1000 2000).
Proof.
  split.
  - destruct (update_window_not_before_first Sample.builtins (sampleChart 3)
                (fst (_chartUpdate Sample.builtins (sampleChart 3)))
                {| newOptions :=
                     [("labels", VArr [VStr "Time"; VStr "Value"]);
                      ("dateWindow", VArr [VNum 1000; VNum 3000]);
                      ("file", VArr (Chart.data (threePoints 3)))];
                   blockRedraw := true |}
                eq_refl eq_refl)
      as (lo & hi & Hr & _ & _ & [(Hc & _) | (_ & Hlo & Hhi)]).
    + discriminate Hc.
    + rewrite Hr, Hlo, Hhi. reflexivity.
  - destruct (update_window_not_before_first Sample.builtins (sampleChart 2)
                (fst (_chartUpdate Sample.builtins (sampleChart 2)))
                {| newOptions :=
                     [("labels", VArr [VStr "Time"; VStr "Value"]);
                      ("dateWindow", VArr [VNum 1000; VNum 3000]);
                      ("file", VArr (Chart.data (threePoints 2)))];
                   blockRedraw := false |}
                eq_refl eq_refl)
      as (lo & hi & Hr & _ & _ & [(_ & Hlo & Hhi) | (Hc & _)]).
    + rewrite Hr, Hlo, Hhi. reflexivity.
    + discriminate Hc.
Defined.

(** X18.  When the chart is not busy and the number the model has reached,
    less one, is not the index of a data point, [_chartUpdate] throws a
    [TypeError] and leaves the component exactly as it was: nothing is
    assigned and Dygraphs is not called. *)
Theorem update_beyond_data_throws
    (B : Builtins) (this : Chart.Chart) (len reached : value) :
  idle (Chart._chartBusy this) = true ->
  get (Chart.metaData (Chart.props this)) "length" = Ok len ->
  get len "model" = Ok reached ->
  Chart.isPoint (nth 0 (Chart.data (Chart.props this)) VUndef) = true ->
  Chart.isPoint
    (element (Chart.data (Chart.props this))
       (PrimFloat.abs (PrimFloat.sub (ToNumber B reached) 1))) = false ->
  _chartUpdate B this =
    (this, Throw (TypeError "Cannot read property of undefined or null")).
Proof.
  intros Hidle Hlen Hmodel Hfirst Hpoint. unfold _chartUpdate.
  rewrite Hlen, Hmodel, Hidle.
  rewrite (get_isPoint (nth 0 (Chart.data (Chart.props this)) VUndef)), Hfirst.
  rewrite (get_isPoint (element _ _)), Hpoint. reflexivity.
Qed.

(** The sample chart of three points, the model said to have reached a
    fifth. *)
Lemma update_beyond_data_throws_sample :
  _chartUpdate Sample.builtins (sampleChart 5) =
    (sampleChart 5,
     Throw (TypeError "Cannot read property of undefined or null")).
Proof.
  exact (update_beyond_data_throws Sample.builtins (sampleChart 5)
           (VObj CObject [("model", VNum 5)]) (VNum 5)
           eq_refl eq_refl eq_refl eq_refl eq_refl).
Defined.

(** X19.  When [_chartUpdate] returns, it has written the data and the
    date window into [props.options] itself, which is the very object it
    gave Dygraphs; every other option is as it was.  [_chartInitalize] run
    afterwards on a new component with these props therefore gives its
    Dygraph the window of that last update, not the one it computes. *)
Theorem update_writes_into_props
    (B : Builtins) (this this' : Chart.Chart) (u : Update) :
  _chartUpdate B this = (this', Ok u) ->
  Chart.options (Chart.props this') = newOptions u
  /\ lookup "file" (newOptions u) = Some (VArr (Chart.data (Chart.props this)))
  /\ lookup "dateWindow" (newOptions u)
     = Some (range_value (Chart._chartRange this'))
  /\ (forall k, k <> "file" -> k <> "dateWindow" ->
        lookup k (newOptions u) = lookup k (Chart.options (Chart.props this)))
  /\ (forall n again,
        NoDup (map fst (Chart.options (Chart.props this))) ->
        Chart._chartInitalize B (Chart.new (Chart.props this') n) = Ok again ->
        exists dygraph,
          Chart._dygraph again = Some dygraph
          /\ lookup "dateWindow" (Chart.dygraphOptions dygraph)
             = Some (range_value (Chart._chartRange this'))).
Proof.
  unfold _chartUpdate. intros H.
  destruct (get (Chart.metaData (Chart.props this)) "length") as [len|];
    [|discriminate].
  destruct (get len "model") as [m|]; [|discriminate].
  destruct (get (nth 0 (Chart.data (Chart.props this)) VUndef) "0") as [d0|];
    [|discriminate].
  destruct (if idle (Chart._chartBusy this) then _ else _) as [range|];
    [|discriminate].
  destruct (Chart._dygraph this) as [dygraph|]; [|discriminate].
  injection H as <- <-.
  cbn [Chart.props Chart.options withOptions newOptions Chart._chartRange].
  assert (Hwindow :
    lookup "dateWindow"
      (Chart.assign1 "file" (VArr (Chart.data (Chart.props this)))
         (Chart.assign1 "dateWindow" (range_value range)
            (Chart.options (Chart.props this))))
    = Some (range_value range)).
  { rewrite lookup_assign1_other by discriminate.
    apply lookup_assign1_same. }
  split; [reflexivity|]. split; [apply lookup_assign1_same|].
  split; [exact Hwindow|]. split.
  - intros k Hf Hw.
    rewrite lookup_assign1_other by congruence.
    now rewrite lookup_assign1_other by congruence.
  - intros n again Hnd Hinit.
    assert (Hnd' : forall k v (l : list (string * value)),
              NoDup (map fst l) -> NoDup (map fst (Chart.assign1 k v l))).
    { intros k v l. induction l as [|[k0 v0] l IH]; cbn [Chart.assign1].
      - intros _. cbn. constructor; [tauto | constructor].
      - intros Hl. inversion Hl as [|? ? Hk0 Hl']; subst.
        destruct (String.eqb k k0) eqn:E.
        + apply String.eqb_eq in E. subst. cbn. now constructor.
        + cbn [map fst]. constructor; [|now apply IH].
          intros Hin. apply Hk0. clear - Hin E.
          induction l as [|[k1 v1] l IH]; cbn [Chart.assign1 map fst In] in *.
          * destruct Hin as [->|[]]. now rewrite String.eqb_refl in E.
          * destruct (String.eqb k k1) eqn:E1.
            -- apply String.eqb_eq in E1. subst. exact Hin.
            -- cbn [map fst In] in Hin. tauto. }
    assert (Hnd2 : NoDup (map fst
              (Chart.options
                 (Chart.props
                    (Chart.new
                       (withOptions (Chart.props this)
                          (Chart.assign1 "file"
                             (VArr (Chart.data (Chart.props this)))
                             (Chart.assign1 "dateWindow" (range_value range)
                                (Chart.options (Chart.props this))))) n))))).
    { cbn [Chart.new Chart.props Chart.options withOptions].
      now apply Hnd', Hnd'. }
    destruct (initialize_options B _ _ Hinit Hnd2)
      as (dy & Hdy & _ & Hopt & _).
    exists dy. split; [exact Hdy|].
    apply Hopt. exact Hwindow.
Qed.

(** The sample chart updated, and a new chart initialised with the props
    it leaves. *)
Lemma update_writes_into_props_sample :
  lookup "file"
    (Chart.options
       (Chart.props (fst (_chartUpdate Sample.builtins (sampleChart 3)))))
  = Some (VArr (Chart.data (threePoints 3))).
Proof.
  destruct (update_writes_into_props Sample.builtins (sampleChart 3)
              (fst (_chartUpdate Sample.builtins (sampleChart 3)))
              {| newOptions :=
                   [("labels", VArr [VStr "Time"; VStr "Value"]);
                    ("dateWindow", VArr [VNum 1000; VNum 3000]);
                    ("file", VArr (Chart.data (threePoints 3)))];
                 blockRedraw := true |}
              eq_refl)
    as (Hsame & Hfile & _).
  rewrite Hsame. exact Hfile.
Defined.

(** X20.  A busy chart (the range selector is being dragged) is updated
    with the window it has, whatever point the model has reached; but the
    update itself ends by marking the chart not busy, so the window is held
    for one update only. *)
Theorem busy_holds_for_one_update
    (B : Builtins) (this : Chart.Chart) (len reached : value)
    (dygraph : Chart.Dygraph) :
  Chart._chartBusy this = Some true ->
  get (Chart.metaData (Chart.props this)) "length" = Ok len ->
  get len "model" = Ok reached ->
  Chart.isPoint (nth 0 (Chart.data (Chart.props this)) VUndef) = true ->
  Chart._dygraph this = Some dygraph ->
  exists this' u,
    _chartUpdate B this = (this', Ok u)
    /\ Chart._chartRange this' = Chart._chartRange this
    /\ lookup "dateWindow" (newOptions u)
       = Some (range_value (Chart._chartRange this))
    /\ idle (Chart._chartBusy this') = true.
Proof.
  intros Hbusy Hlen Hmodel Hfirst Hdygraph. unfold _chartUpdate.
  rewrite Hlen, Hmodel, Hbusy, Hdygraph.
  rewrite (get_isPoint (nth 0 (Chart.data (Chart.props this)) VUndef)), Hfirst.
  cbn [idle]. eexists. eexists. split; [reflexivity|].
  cbn [Chart._chartRange Chart._chartBusy newOptions idle].
  split; [reflexivity|]. split; [|reflexivity].
  rewrite lookup_assign1_other by discriminate.
  apply lookup_assign1_same.
Qed.

(** The sample chart while its range selector is held, the model said to
    have reached a fifth point. *)
Lemma busy_holds_for_one_update_sample :
  exists this' u,
    _chartUpdate Sample.builtins (_rangeMouseDownCallback (sampleChart 5))
    = (this', Ok u)
    /\ Chart._chartRange this' = Some (1000%float, 3000%float)
    /\ idle (Chart._chartBusy this') = true.
Proof.
  destruct (busy_holds_for_one_update Sample.builtins
              (_rangeMouseDownCallback (sampleChart 5))
              (VObj CObject [("model", VNum 5)]) (VNum 5)
              {| Chart.file := Chart.data (threePoints 5);
                 Chart.dygraphOptions :=
                   [("dateWindow", VArr [VNum 1000; VNum 3000]);
                    ("labels", VArr [VStr "Time"; VStr "Value"])] |}
              eq_refl eq_refl eq_refl eq_refl eq_refl)
    as (this' & u & Hu & Hrange & _ & Hidle).
  exists this', u. split; [exact Hu|]. split; [exact Hrange | exact Hidle].
Defined.

(** X21.  Data that arrives after mounting is charted as data present at
    mounting would have been: a component mounted without data and then
    given props with data is left by [componentDidUpdate] exactly as
    [componentDidMount] leaves a component constructed with those props,
    and throws when that one throws. *)
Theorem late_data_initializes_as_mount
    (B : Builtins) (empty later : Chart.Props) (n : float) :
  Chart.data empty = [] ->
  let mountedEmpty := fst (Chart.componentDidMount B (Chart.new empty n)) in
  fst (componentDidUpdate B (receive mountedEmpty later))
  = fst (Chart.componentDidMount B (Chart.new later n))
  /\ (snd (Chart.componentDidMount B (Chart.new later n)) = None <->
      snd (componentDidUpdate B (receive mountedEmpty later)) = Ok None).
Proof.
  intros Hempty mountedEmpty.
  assert (Hm : mountedEmpty = Chart.mounted (Chart.new empty n)).
  { subst mountedEmpty. unfold Chart.componentDidMount.
    cbn [Chart.mounted Chart.new Chart.props]. now rewrite Hempty. }
  rewrite Hm. clear Hm mountedEmpty.
  unfold componentDidUpdate, Chart.componentDidMount, receive.
  cbn [Chart._dygraph Chart.props Chart.mounted Chart.new
       Chart._displayPointCount Chart._chartBusy Chart._chartRange
       Chart._chartRangeWidth Chart._chartScrollLock].
  destruct (Chart.data later) as [|p0 rest] eqn:Hdata.
  - split; [reflexivity|]. split; reflexivity.
  - destruct (Chart._chartInitalize B _) as [this'|e]; cbn [fst snd].
    + split; [reflexivity|]. split; reflexivity.
    + split; [reflexivity|]. split; discriminate.
Qed.

(** The sample chart given its three points after mounting. *)
Lemma late_data_initializes_as_mount_sample :
  fst (componentDidUpdate Sample.builtins
         (receive
            (fst (Chart.componentDidMount Sample.builtins
                    (Chart.new noPoints 2)))
            (threePoints 3)))
  = sampleChart 3.
Proof.
  exact (proj1
    (late_data_initializes_as_mount Sample.builtins noPoints (threePoints 3) 2
       eq_refl)).
Defined.

(* ================================================================== *)
(** * What a parseable record and a cached row need *)
(* ================================================================== *)

(** Parsing is not enough for a record to be sent: the one line of this
    file is accepted by [JSON.parse], and nothing is cached, yet the sink
    receives no event and the batch written at the end of data holds no
    row, because the line has no timestamp and [toISOString] throws before
    the row is queued. *)
Lemma parseable_record_without_date_not_sent :
  cachedRows Sample.builtins Reading.undatedOnly Sample.model = Some []
  /\ getData Reading.undatedOnly "file.csv"
     = [(VNull, VStr Sample.record3_text)] ++ [(VNull, VNull)]
  /\ forallb (Reading.parseable Sample.builtins)
       [(VNull, VStr Sample.record3_text)] = true
  /\ isEnd (VNull, VNull) = true
  /\ count is_send
       (streamData Sample.builtins Reading.undatedOnly "file.csv!value") = 0
  /\ count is_send
       (streamData Sample.builtins Reading.undatedOnly "file.csv!value")
     <> List.length [(VNull, VStr Sample.record3_text)]
  /\ filter is_putMetricDatas
       (streamData Sample.builtins Reading.undatedOnly "file.csv!value")
     = [PutMetricDatas (VStr (JSON_stringify Sample.builtins (VArr [])))].
Proof.
  repeat split; try reflexivity. cbn. discriminate.
Qed.

(** A row as [streamData] queues it, replayed for a model whose timestamp
    field is not one of the row's keys: the event is made of the date of
    [undefined]. *)
Lemma replay_of_written_row
    (B : Builtins) (model : Model) (rowid t v : float) (iso : string) :
  ~ In (timestampField model) Reading.rowKeys ->
  replayOf B model (dataRow B model rowid t v iso)
  = ExecuteAction SendDataAction
      (VObj CObject
         [("modelId", VStr (modelId model));
          ("data",
           VArr [VNum (PrimFloat.div (Date_time B VUndef) 1000); VNum v])]).
Proof.
  intros Hkey. unfold replayOf, dataRow, field, sendData.
  cbn [get lookup Reading.rowKeys In] in *.
  repeat match goal with
         | |- context [String.eqb (timestampField model) ?k] =>
             let E := fresh in
             destruct (String.eqb (timestampField model) k) eqn:E;
             [apply String.eqb_eq in E; exfalso; apply Hkey; rewrite E; tauto|]
         end.
  reflexivity.
Qed.

(** The same row replayed for a model whose timestamp field is
    [timestamp]: the event is made of the date of the ISO string. *)
Lemma replay_of_written_row_timestamp
    (B : Builtins) (model : Model) (rowid t v : float) (iso : string) :
  timestampField model = "timestamp" ->
  replayOf B model (dataRow B model rowid t v iso)
  = ExecuteAction SendDataAction
      (VObj CObject
         [("modelId", VStr (modelId model));
          ("data",
           VArr [VNum (PrimFloat.div (Date_time B (VStr iso)) 1000);
                 VNum v])]).
Proof.
  intros Hkey. unfold replayOf, dataRow, field, sendData. rewrite Hkey.
  reflexivity.
Qed.

(** C3.  A file whose time column is called [ts], read once and then
    replayed.  The first run sends the record at second 1 and writes a row
    that keeps the time under the key [timestamp]; the second run, given
    that row back by the database, reads [row["ts"]], finds nothing, and
    sends NaN for the time of the row. *)
Theorem replay_reads_the_models_timestamp_field :
  filter is_send
    (streamData Replayed.builtins Replayed.firstRun "file.csv!value")
  = [ExecuteAction SendDataAction
       (VObj CObject
          [("modelId", VStr "file.csv!value");
           ("data", VArr [VNum 1; VNum 5])])]
  /\ filter is_putMetricDatas
       (streamData Replayed.builtins Replayed.firstRun "file.csv!value")
     = [PutMetricDatas (VStr Replayed.stored_text)]
  /\ JSON_parse Replayed.builtins (VStr Replayed.stored_text)
     = Some (VArr [Replayed.storedRow])
  /\ get Replayed.storedRow "timestamp" = Ok (VStr "1970-01-01T00:00:01.000Z")
  /\ get Replayed.storedRow "ts" = Ok VUndef
  /\ streamData Replayed.builtins Replayed.secondRun "file.csv!value"
     = [LogDebug "see if metric data is already saved in DB first";
        GetMetricDatas (VObj CObject [("metric_uid", VStr "file.csv!value")]);
        LogDebug "yes metric data is already in DB, use it";
        ExecuteAction SendDataAction
          (VObj CObject
             [("modelId", VStr "file.csv!value");
              ("data", VArr [VNum PrimFloat.nan; VNum 5])]);
        LogDebug "on to UI";
        Resolve StreamDataPromise (VStr "file.csv!value")].
Proof. repeat split; vm_compute; reflexivity. Qed.
